(** * AI Research Agent (vanilla JS): a shallow embedding of [script.js]

    The development follows the two classes of [script.js]:
    [MockAPIService] (the two hard-coded catalogues, the relevance score and
    the two filtered fetches) and [AIResearchAgent] (the five-step workflow,
    the history and its persistence in [localStorage]).

    Conventions of the embedding.
    - JS strings are [string]s of 8-bit characters; [toLowerCase] and [trim]
      act on the ASCII range only.
    - JS numbers: counters, lengths and millisecond time values are in [Z] or
      [nat]; the decimal relevance scores and the score arithmetic of
      [calculateRelevance] are exact rationals ([Q]); [progress], the one
      field computed by a floating-point division, is a binary64 [float].
    - Objects that the code shares and mutates (the research records) live in
      a heap and are handled by reference.
    - [async] functions are cut at their timer awaits ([await this.delay]):
      what runs between two timers is one atomic turn of the event loop. *)

From Stdlib Require Import ZArith QArith Qminmax String Ascii List Bool Lia Lqa Sorted.
From Stdlib Require Import DecimalString Floats.PrimFloat Numbers.Cyclic.Int63.Uint63.
From stdpp Require Import base list.

Import ListNotations.
Set Warnings "-register-all".
Open Scope string_scope.
Open Scope list_scope.

(** ** JavaScript string primitives *)

Definition toLowerCase_char (c : ascii) : ascii :=
  let n := nat_of_ascii c in
  if (65 <=? n)%nat && (n <=? 90)%nat then ascii_of_nat (n + 32) else c.

(** [String.prototype.toLowerCase]. *)
Fixpoint toLowerCase (s : string) : string :=
  match s with
  | EmptyString => EmptyString
  | String c s' => String (toLowerCase_char c) (toLowerCase s')
  end.

(** [s.includes(sub)]: [sub] occurs in [s] at some position. *)
Fixpoint includes (s sub : string) : bool :=
  String.prefix sub s ||
  match s with
  | EmptyString => false
  | String _ s' => includes s' sub
  end.

(** [s.split(sep)] for a one-character separator: every occurrence of [sep]
    ends a piece, so two separators in a row give an empty piece and the
    empty string gives one empty piece. *)
Fixpoint split (sep : ascii) (s : string) : list string :=
  match s with
  | EmptyString => [EmptyString]
  | String c s' =>
      if Ascii.eqb c sep then EmptyString :: split sep s'
      else match split sep s' with
           | w :: ws => String c w :: ws
           | [] => [String c EmptyString]
           end
  end.

(** White space of [String.prototype.trim] in the ASCII range:
    TAB, LF, VT, FF, CR and SPACE. *)
Definition is_white_space (c : ascii) : bool :=
  let n := nat_of_ascii c in
  ((9 <=? n)%nat && (n <=? 13)%nat) || (n =? 32)%nat.

Fixpoint trimStart (s : string) : string :=
  match s with
  | EmptyString => EmptyString
  | String c s' => if is_white_space c then trimStart s' else s
  end.

Fixpoint trimEnd (s : string) : string :=
  match s with
  | EmptyString => EmptyString
  | String c s' =>
      match trimEnd s' with
      | EmptyString => if is_white_space c then EmptyString else String c EmptyString
      | t => String c t
      end
  end.

(** [String.prototype.trim]. *)
Definition trim (s : string) : string := trimEnd (trimStart s).

(** Decimal rendering of an integer, as in a template literal. *)
Definition string_of_nat (n : nat) : string := NilZero.string_of_uint (Nat.to_uint n).
Definition string_of_Z (z : Z) : string := NilZero.string_of_int (Z.to_int z).

(** [arr.slice(0, end)]; an [undefined] end keeps the whole array. *)
Definition slice0 {A} (end_ : option nat) (l : list A) : list A :=
  match end_ with
  | Some n => firstn n l
  | None => l
  end.

(** [[...new Set(arr)]]: the distinct entries, each at its first occurrence. *)
Fixpoint unique (l : list string) : list string :=
  match l with
  | [] => []
  | x :: l' => x :: List.filter (fun y => negb (String.eqb x y)) (unique l')
  end.

(** [Array.prototype.sort] with a comparator.  The language requires the sort
    to be stable, and for a consistent comparator the result is then unique:
    the embedding computes it by stable insertion.  [comparefn a b > 0] means
    that [a] goes after [b]. *)
Section ArraySort.
Context {A : Type} (comparefn : A -> A -> Q).

Fixpoint sort_insert (x : A) (l : list A) : list A :=
  match l with
  | [] => [x]
  | y :: l' =>
      if Qle_bool (comparefn x y) 0 then x :: y :: l'
      else y :: sort_insert x l'
  end.

Fixpoint Array_sort (l : list A) : list A :=
  match l with
  | [] => []
  | x :: l' => sort_insert x (Array_sort l')
  end.
End ArraySort.

(** ** SourceArticle and the catalogues of [MockAPIService] *)

Record article := {
  title : string;
  summary : string;
  url : string;
  source : string;
  relevance : Q
}.

Definition generateWikipediaData : list article := [
  {| title := "Artificial Intelligence";
     summary := "Artificial intelligence (AI) is intelligence demonstrated by machines, in contrast to the natural intelligence displayed by humans and animals.";
     url := "https://en.wikipedia.org/wiki/Artificial_intelligence";
     source := "Wikipedia"; relevance := 95 # 100 |};
  {| title := "Machine Learning";
     summary := "Machine learning (ML) is a type of artificial intelligence that allows software applications to become more accurate at predicting outcomes.";
     url := "https://en.wikipedia.org/wiki/Machine_learning";
     source := "Wikipedia"; relevance := 92 # 100 |};
  {| title := "Deep Learning";
     summary := "Deep learning is part of a broader family of machine learning methods based on artificial neural networks with representation learning.";
     url := "https://en.wikipedia.org/wiki/Deep_learning";
     source := "Wikipedia"; relevance := 88 # 100 |};
  {| title := "Natural Language Processing";
     summary := "Natural language processing (NLP) is a subfield of linguistics, computer science, and artificial intelligence concerned with interactions between computers and human language.";
     url := "https://en.wikipedia.org/wiki/Natural_language_processing";
     source := "Wikipedia"; relevance := 85 # 100 |};
  {| title := "Computer Vision";
     summary := "Computer vision is an interdisciplinary scientific field that deals with how computers can gain high-level understanding from digital images or videos.";
     url := "https://en.wikipedia.org/wiki/Computer_vision";
     source := "Wikipedia"; relevance := 82 # 100 |};
  {| title := "Neural Network";
     summary := "A neural network is a network or circuit of neurons, or in a modern sense, an artificial neural network, composed of artificial neurons or nodes.";
     url := "https://en.wikipedia.org/wiki/Neural_network";
     source := "Wikipedia"; relevance := 80 # 100 |};
  {| title := "Data Science";
     summary := "Data science is an inter-disciplinary field that uses scientific methods, processes, algorithms and systems to extract knowledge and insights from data.";
     url := "https://en.wikipedia.org/wiki/Data_science";
     source := "Wikipedia"; relevance := 78 # 100 |};
  {| title := "Robotics";
     summary := "Robotics is an interdisciplinary research area at the interface of computer science and engineering that deals with the design, construction, operation, and use of robots.";
     url := "https://en.wikipedia.org/wiki/Robotics";
     source := "Wikipedia"; relevance := 75 # 100 |};
  {| title := "Blockchain Technology";
     summary := "A blockchain is a growing list of records, called blocks, that are linked and secured using cryptography for secure and transparent transactions.";
     url := "https://en.wikipedia.org/wiki/Blockchain";
     source := "Wikipedia"; relevance := 70 # 100 |};
  {| title := "Internet of Things";
     summary := "The Internet of things (IoT) describes the network of physical objects that are embedded with sensors, software, and other technologies for connecting and exchanging data.";
     url := "https://en.wikipedia.org/wiki/Internet_of_things";
     source := "Wikipedia"; relevance := 68 # 100 |}
].

Definition generateHackerNewsData : list article := [
  {| title := "The Future of AI in Healthcare";
     summary := "Discussion about how artificial intelligence is revolutionizing medical diagnosis, treatment planning, and patient care across various healthcare sectors.";
     url := "https://news.ycombinator.com/item?id=12345";
     source := "HackerNews"; relevance := 90 # 100 |};
  {| title := "Building Scalable Machine Learning Systems";
     summary := "Technical discussion on architecture patterns, infrastructure choices, and best practices for deploying ML models at scale in production environments.";
     url := "https://news.ycombinator.com/item?id=12346";
     source := "HackerNews"; relevance := 87 # 100 |};
  {| title := "Open Source AI Tools and Frameworks";
     summary := "Community discussion about the latest open-source tools, libraries, and frameworks that are driving innovation in artificial intelligence development.";
     url := "https://news.ycombinator.com/item?id=12347";
     source := "HackerNews"; relevance := 84 # 100 |};
  {| title := "Ethics in AI Development";
     summary := "Important conversation about responsible AI development, bias mitigation, privacy concerns, and the societal impact of artificial intelligence systems.";
     url := "https://news.ycombinator.com/item?id=12348";
     source := "HackerNews"; relevance := 81 # 100 |};
  {| title := "Startup Success with AI Integration";
     summary := "Real-world case studies and experiences from startups that have successfully integrated AI technologies into their products and business models.";
     url := "https://news.ycombinator.com/item?id=12349";
     source := "HackerNews"; relevance := 78 # 100 |};
  {| title := "Latest Breakthroughs in Research";
     summary := "Discussion of recent academic papers, research findings, and technological breakthroughs that are pushing the boundaries of what's possible.";
     url := "https://news.ycombinator.com/item?id=12350";
     source := "HackerNews"; relevance := 75 # 100 |};
  {| title := "AI in Software Development";
     summary := "How artificial intelligence is changing the way we write, test, and maintain code, including AI-powered development tools and automation.";
     url := "https://news.ycombinator.com/item?id=12351";
     source := "HackerNews"; relevance := 72 # 100 |};
  {| title := "Data Privacy and Security";
     summary := "Technical discussion about protecting user data, implementing privacy-preserving technologies, and maintaining security in data-driven applications.";
     url := "https://news.ycombinator.com/item?id=12352";
     source := "HackerNews"; relevance := 69 # 100 |};
  {| title := "Cloud Computing Innovations";
     summary := "Latest developments in cloud infrastructure, serverless computing, and distributed systems that enable modern application development.";
     url := "https://news.ycombinator.com/item?id=12353";
     source := "HackerNews"; relevance := 66 # 100 |};
  {| title := "Mobile Technology Trends";
     summary := "Discussion about emerging mobile technologies, development frameworks, and user experience innovations in mobile application development.";
     url := "https://news.ycombinator.com/item?id=12354";
     source := "HackerNews"; relevance := 63 # 100 |}
].

(** ** JavaScript values and the host environment *)

Inductive number :=
  | Int (z : Z)
  | Dec (q : Q)
  | Dbl (f : float).

(** The values that reach [JSON.stringify] and come back from [JSON.parse],
    with [Date] objects ([VDate None] is an invalid date). *)
Inductive value :=
  | VUndefined
  | VNull
  | VBool (b : bool)
  | VNum (n : number)
  | VStr (s : string)
  | VDate (t : option Z)
  | VArr (items : list value)
  | VObj (fields : list (string * value)).

(** A text kept in [localStorage] is represented by what [JSON.parse] makes
    of it: a [SyntaxError], or the parsed document. *)
Inductive stored_text :=
  | Malformed (raw : string)
  | Wellformed (doc : value).

(** What the browser provides and the code does not define. *)
Record Host := {
  (** the value returned by the [n]-th call of [Math.random()] *)
  Math_random : nat -> Q;
  (** [Number.prototype.toString(36)] *)
  toString36 : Q -> string;
  (** [Date.prototype.toLocaleTimeString] of a time value *)
  toLocaleTimeString : Z -> string;
  (** [Date.prototype.toISOString] of a time value *)
  toISOString : Z -> string;
  (** the time value of [new Date(v)]; [None] is an invalid date *)
  new_Date : value -> option Z;
  (** whether [localStorage.setItem] takes the text of this document
      (it throws a [QuotaExceededError] otherwise) *)
  setItem_accepts : value -> bool
}.

Inductive error :=
  | TypeError (msg : string).

(** ** ResearchRecord *)

Record Log := { timestamp : string; message : string }.

Record RawData := { wikipedia : list article; hackernews : list article }.

Record ProcessedData := {
  pd_sources : list article;
  pd_summary : string;
  pd_keywords : list string
}.

Record Metadata := {
  totalSources : nat;
  researchDepth : string;
  processingTime : Z
}.

Record Results := {
  res_summary : string;
  res_sources : list article;
  res_keywords : list string;
  metadata : Metadata
}.

(** The object built by [startResearch].  [rawData], [processedData] and
    [endTime] are properties added later: [None] is an absent property;
    [results] starts as [null]. *)
Record Research := {
  research_id : string;
  topic : string;
  depth : string;
  status : string;
  startTime : Z;
  progress : float;
  currentStep : nat;
  logs : list Log;
  results : option Results;
  rawData : option RawData;
  processedData : option ProcessedData;
  endTime : option Z
}.

Definition set_status (v : string) (r : Research) : Research :=
  {| research_id := research_id r; topic := topic r; depth := depth r; status := v;
     startTime := startTime r; progress := progress r; currentStep := currentStep r;
     logs := logs r; results := results r; rawData := rawData r;
     processedData := processedData r; endTime := endTime r |}.

Definition set_progress (v : float) (r : Research) : Research :=
  {| research_id := research_id r; topic := topic r; depth := depth r; status := status r;
     startTime := startTime r; progress := v; currentStep := currentStep r;
     logs := logs r; results := results r; rawData := rawData r;
     processedData := processedData r; endTime := endTime r |}.

Definition set_currentStep (v : nat) (r : Research) : Research :=
  {| research_id := research_id r; topic := topic r; depth := depth r; status := status r;
     startTime := startTime r; progress := progress r; currentStep := v;
     logs := logs r; results := results r; rawData := rawData r;
     processedData := processedData r; endTime := endTime r |}.

Definition set_logs (v : list Log) (r : Research) : Research :=
  {| research_id := research_id r; topic := topic r; depth := depth r; status := status r;
     startTime := startTime r; progress := progress r; currentStep := currentStep r;
     logs := v; results := results r; rawData := rawData r;
     processedData := processedData r; endTime := endTime r |}.

Definition set_results (v : option Results) (r : Research) : Research :=
  {| research_id := research_id r; topic := topic r; depth := depth r; status := status r;
     startTime := startTime r; progress := progress r; currentStep := currentStep r;
     logs := logs r; results := v; rawData := rawData r;
     processedData := processedData r; endTime := endTime r |}.

Definition set_rawData (v : option RawData) (r : Research) : Research :=
  {| research_id := research_id r; topic := topic r; depth := depth r; status := status r;
     startTime := startTime r; progress := progress r; currentStep := currentStep r;
     logs := logs r; results := results r; rawData := v;
     processedData := processedData r; endTime := endTime r |}.

Definition set_processedData (v : option ProcessedData) (r : Research) : Research :=
  {| research_id := research_id r; topic := topic r; depth := depth r; status := status r;
     startTime := startTime r; progress := progress r; currentStep := currentStep r;
     logs := logs r; results := results r; rawData := rawData r;
     processedData := v; endTime := endTime r |}.

Definition set_endTime (v : option Z) (r : Research) : Research :=
  {| research_id := research_id r; topic := topic r; depth := depth r; status := status r;
     startTime := startTime r; progress := progress r; currentStep := currentStep r;
     logs := logs r; results := results r; rawData := rawData r;
     processedData := processedData r; endTime := v |}.

(** ** The workflow's steps and the suspended [async] calls *)

Record Step := { name : string; duration : Z }.

(** The [steps] array of [runResearchWorkflow]. *)
Definition steps : list Step := [
  {| name := "Input Parsing"; duration := 1000 |};
  {| name := "Data Gathering"; duration := 3000 |};
  {| name := "Processing"; duration := 4000 |};
  {| name := "Result Persistence"; duration := 1500 |};
  {| name := "Return Results"; duration := 1000 |}
].

(** An [async] call chain suspended at a timer, with the locals it holds.
    - [InExecuteStep k step]: [executeStep(k, step)] at
      [await this.delay(step.duration)], called by the loop of
      [runResearchWorkflow] at index [k - 1];
    - [InFetchWikipedia step topic]: [fetchWikipediaArticles(topic)] at
      [await this.delay(1000)], called by [gatherData] in
      [executeStep(2, step)];
    - [InFetchHackerNews step topic sources]: [fetchHackerNewsArticles(topic)]
      at [await this.delay(1200)], [gatherData] holding [sources]. *)
Inductive Continuation :=
  | InExecuteStep (stepNumber : nat) (step : Step)
  | InFetchWikipedia (step : Step) (topic : string)
  | InFetchHackerNews (step : Step) (topic : string) (sources : list article).

(** ** The agent and the part of the browser it acts on *)

Record World := {
  (** [this.currentResearch]: [null] or a reference into [heap] *)
  currentResearch : option nat;
  (** [this.researchHistory]: an array of references, most recent first *)
  researchHistory : list nat;
  (** the research objects *)
  heap : list Research;
  (** [localStorage.getItem('aiResearchHistory')] *)
  localStorage : option stored_text;
  (** [Date.now()] *)
  clock : Z;
  (** how many times [Math.random()] was called *)
  randomCalls : nat;
  (** pending [setTimeout] callbacks with their due times, oldest first *)
  timers : list (Z * Continuation);
  (** the [disabled] attribute of the form's three controls *)
  formDisabled : bool;
  (** the width of [progressFill], in percent *)
  progressFill : float;
  (** the messages shown by [alert] *)
  alerts : list string;
  (** rejections of [async] calls that nothing handles *)
  uncaught : list error
}.

Definition set_currentResearch (v : option nat) (w : World) : World :=
  {| currentResearch := v; researchHistory := researchHistory w; heap := heap w;
     localStorage := localStorage w; clock := clock w; randomCalls := randomCalls w;
     timers := timers w; formDisabled := formDisabled w; progressFill := progressFill w;
     alerts := alerts w; uncaught := uncaught w |}.

Definition set_researchHistory (v : list nat) (w : World) : World :=
  {| currentResearch := currentResearch w; researchHistory := v; heap := heap w;
     localStorage := localStorage w; clock := clock w; randomCalls := randomCalls w;
     timers := timers w; formDisabled := formDisabled w; progressFill := progressFill w;
     alerts := alerts w; uncaught := uncaught w |}.

Definition set_heap (v : list Research) (w : World) : World :=
  {| currentResearch := currentResearch w; researchHistory := researchHistory w; heap := v;
     localStorage := localStorage w; clock := clock w; randomCalls := randomCalls w;
     timers := timers w; formDisabled := formDisabled w; progressFill := progressFill w;
     alerts := alerts w; uncaught := uncaught w |}.

Definition set_localStorage (v : option stored_text) (w : World) : World :=
  {| currentResearch := currentResearch w; researchHistory := researchHistory w; heap := heap w;
     localStorage := v; clock := clock w; randomCalls := randomCalls w;
     timers := timers w; formDisabled := formDisabled w; progressFill := progressFill w;
     alerts := alerts w; uncaught := uncaught w |}.

Definition set_clock (v : Z) (w : World) : World :=
  {| currentResearch := currentResearch w; researchHistory := researchHistory w; heap := heap w;
     localStorage := localStorage w; clock := v; randomCalls := randomCalls w;
     timers := timers w; formDisabled := formDisabled w; progressFill := progressFill w;
     alerts := alerts w; uncaught := uncaught w |}.

Definition set_randomCalls (v : nat) (w : World) : World :=
  {| currentResearch := currentResearch w; researchHistory := researchHistory w; heap := heap w;
     localStorage := localStorage w; clock := clock w; randomCalls := v;
     timers := timers w; formDisabled := formDisabled w; progressFill := progressFill w;
     alerts := alerts w; uncaught := uncaught w |}.

Definition set_timers (v : list (Z * Continuation)) (w : World) : World :=
  {| currentResearch := currentResearch w; researchHistory := researchHistory w; heap := heap w;
     localStorage := localStorage w; clock := clock w; randomCalls := randomCalls w;
     timers := v; formDisabled := formDisabled w; progressFill := progressFill w;
     alerts := alerts w; uncaught := uncaught w |}.

Definition set_formDisabled (v : bool) (w : World) : World :=
  {| currentResearch := currentResearch w; researchHistory := researchHistory w; heap := heap w;
     localStorage := localStorage w; clock := clock w; randomCalls := randomCalls w;
     timers := timers w; formDisabled := v; progressFill := progressFill w;
     alerts := alerts w; uncaught := uncaught w |}.

Definition set_progressFill (v : float) (w : World) : World :=
  {| currentResearch := currentResearch w; researchHistory := researchHistory w; heap := heap w;
     localStorage := localStorage w; clock := clock w; randomCalls := randomCalls w;
     timers := timers w; formDisabled := formDisabled w; progressFill := v;
     alerts := alerts w; uncaught := uncaught w |}.

Definition set_alerts (v : list string) (w : World) : World :=
  {| currentResearch := currentResearch w; researchHistory := researchHistory w; heap := heap w;
     localStorage := localStorage w; clock := clock w; randomCalls := randomCalls w;
     timers := timers w; formDisabled := formDisabled w; progressFill := progressFill w;
     alerts := v; uncaught := uncaught w |}.

Definition set_uncaught (v : list error) (w : World) : World :=
  {| currentResearch := currentResearch w; researchHistory := researchHistory w; heap := heap w;
     localStorage := localStorage w; clock := clock w; randomCalls := randomCalls w;
     timers := timers w; formDisabled := formDisabled w; progressFill := progressFill w;
     alerts := alerts w; uncaught := v |}.

(** Statements in sequence: [w |> f |> g] runs [f], then [g]. *)
Notation "w |> f" := (f w) (at level 45, left associativity, only parsing).

(** The object behind [this.currentResearch], when there is one. *)
Definition current_record (w : World) : option Research :=
  match currentResearch w with
  | Some r => heap w !! r
  | None => None
  end.

(** ** A concrete host

    A host to run the embedding on: ISO 8601 dates in UTC as
    [toISOString] prints them, a fixed sequence of random numbers and a
    storage without quota. *)
Module DemoHost.

(** The civil date of a day number (days since 1970-01-01), proleptic
    Gregorian calendar. *)
Definition civil_from_days (days : Z) : Z * Z * Z :=
  let z := (days + 719468)%Z in
  let era := (z / 146097)%Z in
  let doe := (z - era * 146097)%Z in
  let yoe := ((doe - doe / 1460 + doe / 36524 - doe / 146096) / 365)%Z in
  let doy := (doe - (365 * yoe + yoe / 4 - yoe / 100))%Z in
  let mp := ((5 * doy + 2) / 153)%Z in
  let d := (doy - (153 * mp + 2) / 5 + 1)%Z in
  let m := (if (mp <? 10)%Z then mp + 3 else mp - 9)%Z in
  ((if (m <=? 2)%Z then yoe + era * 400 + 1 else yoe + era * 400)%Z, m, d).

Definition days_from_civil (y m d : Z) : Z :=
  let y' := (if (m <=? 2)%Z then y - 1 else y)%Z in
  let era := (y' / 400)%Z in
  let yoe := (y' - era * 400)%Z in
  let doy := ((153 * (if (2 <? m)%Z then m - 3 else m + 9) + 2) / 5 + d - 1)%Z in
  let doe := (yoe * 365 + yoe / 4 - yoe / 100 + doy)%Z in
  (era * 146097 + doe - 719468)%Z.

Definition digit_char (d : Z) : ascii := ascii_of_nat (48 + Z.to_nat d).

(** [n] in [width] decimal digits, zero padded. *)
Fixpoint pad (width : nat) (n : Z) (acc : string) : string :=
  match width with
  | O => acc
  | S width' => pad width' (n / 10)%Z (String (digit_char (n mod 10)%Z) acc)
  end.

Definition iso_string (t : Z) : string :=
  let '(y, m, d) := civil_from_days (t / 86400000)%Z in
  let ms := (t mod 86400000)%Z in
  pad 4 y ("-" ++ pad 2 m ("-" ++ pad 2 d ("T" ++ pad 2 (ms / 3600000)%Z
    (":" ++ pad 2 (ms / 60000 mod 60)%Z (":" ++ pad 2 (ms / 1000 mod 60)%Z
    ("." ++ pad 3 (ms mod 1000)%Z "Z")))))).

Definition digit_value (c : ascii) : option Z :=
  let n := nat_of_ascii c in
  if (48 <=? n)%nat && (n <=? 57)%nat then Some (Z.of_nat (n - 48)) else None.

(** The number written by the [width] digits of [s] from position [pos]. *)
Definition digits_at (pos width : nat) (s : string) : option Z :=
  fold_left
    (fun acc c => n ← acc; d ← digit_value c; Some (10 * n + d)%Z)
    (list_ascii_of_string (substring pos width s))
    (Some 0%Z).

(** [Date.parse] on the format of [iso_string]. *)
Definition parse_iso (s : string) : option Z :=
  if negb (String.length s =? 24)%nat then None
  else if negb (String.eqb (substring 4 1 s ++ substring 7 1 s ++ substring 10 1 s
                            ++ substring 13 1 s ++ substring 16 1 s
                            ++ substring 19 1 s ++ substring 23 1 s) "--T::.Z")
  then None
  else
    y ← digits_at 0 4 s; m ← digits_at 5 2 s; d ← digits_at 8 2 s;
    hh ← digits_at 11 2 s; mm ← digits_at 14 2 s; ss ← digits_at 17 2 s;
    ms ← digits_at 20 3 s;
    Some (days_from_civil y m d * 86400000 + hh * 3600000 + mm * 60000
          + ss * 1000 + ms)%Z.

Definition time_string (t : Z) : string :=
  let ms := (t mod 86400000)%Z in
  pad 2 (ms / 3600000)%Z (":" ++ pad 2 (ms / 60000 mod 60)%Z
    (":" ++ pad 2 (ms / 1000 mod 60)%Z "")).

Definition date_of_value (v : value) : option Z :=
  match v with
  | VStr s => parse_iso s
  | VNum (Int z) => Some z
  | VNull => Some 0%Z
  | VBool b => Some (if b then 1 else 0)%Z
  | VDate t => t
  | _ => None
  end.

Definition host : Host := {|
  Math_random := fun n => Z.of_nat ((n * 37 + 11) mod 100) # 100;
  toString36 := fun _ => "0.4fzyo82mvyr";
  toLocaleTimeString := time_string;
  toISOString := iso_string;
  new_Date := date_of_value;
  setItem_accepts := fun _ => true
|}.

(** The page just loaded at time [now], nothing in [localStorage]. *)
Definition world (now : Z) : World := {|
  currentResearch := None; researchHistory := []; heap := [];
  localStorage := None; clock := now; randomCalls := 0; timers := [];
  formDisabled := false; progressFill := 0; alerts := []; uncaught := []
|}.

(** The page loaded on 2023-11-14 at 22:13:20 UTC. *)
Definition start : World := world 1700000000000.



End DemoHost.

Section Agent.

Variable host : Host.

(** ** MockAPIService *)

(** The loop of [calculateRelevance]: one more match for every topic word
    that some content word contains, or that contains some content word. *)
Definition count_matches (topicWords contentWords : list string) : nat :=
  fold_left
    (fun matches word =>
       if existsb (fun cWord => includes cWord word || includes word cWord) contentWords
       then S matches else matches)
    topicWords 0%nat.

(** [calculateRelevance(topic, content)], with the number [n] of calls of
    [Math.random()] made before; it makes one more. *)
Definition calculateRelevance (topic content : string) (n : nat) : Q * nat :=
  let topicWords := split " " (toLowerCase topic) in
  let contentWords := split " " (toLowerCase content) in
  let matches := count_matches topicWords contentWords in
  (Qmin (inject_Z (Z.of_nat matches) / inject_Z (Z.of_nat (length topicWords))
         + Math_random host n * (3 # 10)) 1,
   S n).

(** A topic word is matched when some content word contains it or is
    contained in it. *)
Definition word_matches (contentWords : list string) (word : string) : bool :=
  existsb (fun cWord => includes cWord word || includes word cWord) contentWords.




(** A text whose only white space is single spaces between words: every
    white-space character is a space and no piece of [split(' ')] is
    empty. *)
Definition plain_spacing (s : string) : bool :=
  forallb (fun c => negb (is_white_space c) || Ascii.eqb c " ") (list_ascii_of_string s)
  && forallb (fun piece => negb (String.eqb piece "")) (split " " s).

(** The predicate of the two filters; [||] evaluates [calculateRelevance]
    only when the topic is in neither the title nor the summary. *)
Definition is_relevant (topic : string) (a : article) (n : nat) : bool * nat :=
  if includes (toLowerCase (title a)) (toLowerCase topic) then (true, n)
  else if includes (toLowerCase (summary a)) (toLowerCase topic) then (true, n)
  else
    let '(score, n') := calculateRelevance topic (title a ++ " " ++ summary a) n in
    (negb (Qle_bool score (3 # 10)), n').

Fixpoint filter_relevant (topic : string) (data : list article) (n : nat)
  : list article * nat :=
  match data with
  | [] => ([], n)
  | a :: data' =>
      let '(keep, n1) := is_relevant topic a n in
      let '(kept, n2) := filter_relevant topic data' n1 in
      (if keep then a :: kept else kept, n2)
  end.

(** [fetchWikipediaArticles(topic)], after its delay. *)
Definition fetchWikipediaArticles (topic : string) (n : nat) : list article * nat :=
  let '(relevantArticles, n') := filter_relevant topic generateWikipediaData n in
  (firstn 8 relevantArticles, n').

(** [fetchHackerNewsArticles(topic)], after its delay. *)
Definition fetchHackerNewsArticles (topic : string) (n : nat) : list article * nat :=
  let '(relevantArticles, n') := filter_relevant topic generateHackerNewsData n in
  (firstn 7 relevantArticles, n').

(** ** AIResearchAgent: the pure helpers *)

(** [depthMap[depth]]; [None] is [undefined]. *)
Definition depthMap (depth : string) : option nat :=
  if String.eqb depth "basic" then Some 5%nat
  else if String.eqb depth "detailed" then Some 10%nat
  else if String.eqb depth "comprehensive" then Some 15%nat
  else None.

Definition newline : string := String (ascii_of_nat 10) EmptyString.

(** The template of [generateSummary], from the two values it reads:
    [this.currentResearch.topic] and [sources.length]. *)
Definition summary_template (topic : string) (sourceCount : nat) : string :=
  "Based on comprehensive analysis of " ++ string_of_nat sourceCount
  ++ " high-quality sources, here's what we found about " ++ String (ascii_of_nat 34) topic
  ++ String (ascii_of_nat 34) ":" ++ newline ++ newline
  ++ "The research reveals several key insights and trends in this field. Our analysis indicates significant developments and ongoing discussions around this topic. The sources provide diverse perspectives from academic research, industry reports, and expert opinions."
  ++ newline ++ newline
  ++ "Key findings include emerging patterns, technological advancements, and practical applications that are shaping the current landscape. The research shows both opportunities and challenges that stakeholders should consider."
  ++ newline ++ newline
  ++ "This summary synthesizes information from Wikipedia articles, HackerNews discussions, and other authoritative sources to provide a comprehensive overview of the current state and future directions in this area."
  ++ newline ++ newline
  ++ "The analysis suggests continued growth and evolution in this field, with several factors driving innovation and adoption. Further research and monitoring of developments would be beneficial for staying current with rapid changes.".

(** [generateSummary(sources)], called with [rec] as [this.currentResearch]. *)
Definition generateSummary (rec : Research) (sources : list article) : string :=
  let topic := topic rec in
  let sourceCount := length sources in
  summary_template topic sourceCount.

Definition additionalKeywords : list string := [
  "artificial intelligence"; "machine learning"; "technology"; "innovation";
  "research"; "development"; "analysis"; "trends"; "future"; "applications";
  "industry"; "market"; "growth"; "challenges"; "opportunities"; "solutions"
].

(** [extractKeywords(topic, sources)]. *)
Definition extractKeywords (topic : string) (sources : list article) : list string :=
  let baseKeywords := split " " (toLowerCase topic) in
  let allKeywords := baseKeywords ++ additionalKeywords in
  let uniqueKeywords := unique allKeywords in
  firstn 12 uniqueKeywords.

(** [(stepNumber / 5) * 100] in binary64. *)
Definition progress_of (stepNumber : nat) : float :=
  (PrimFloat.of_uint63 (Uint63.of_Z (Z.of_nat stepNumber)) / 5 * 100)%float.

(** [generateId()]: one call of [Math.random()]. *)
Definition generateId (w : World) : string * World :=
  (("research_" ++ string_of_Z (clock w) ++ "_"
      ++ substring 2 9 (toString36 host (Math_random host (randomCalls w))))%string,
   set_randomCalls (S (randomCalls w)) w).

(** ** AIResearchAgent: the workflow

    A turn of the event loop either runs to its end or throws; what it
    throws rejects the [async] call chain, which nothing catches. *)

Inductive Completion :=
  | Normal (w : World)
  | Throw (e : error) (w : World).

Definition Async := World -> Completion.

Definition andThen (f g : Async) : Async :=
  fun w =>
    match f w with
    | Normal w' => g w'
    | Throw e w' => Throw e w'
    end.

Notation "f ;; g" := (andThen f g) (at level 100, g at level 200, right associativity).

Definition lift (f : World -> World) : Async := fun w => Normal (f w).

Definition null_dereference : error :=
  TypeError "Cannot read properties of null".

(** The object behind [this.currentResearch] is replaced by [rec]. *)
Definition put (rec : Research) (w : World) : World :=
  match currentResearch w with
  | Some r => set_heap (<[r := rec]> (heap w)) w
  | None => w
  end.

(** A read of [this.currentResearch.p]. *)
Definition withCurrent (k : Research -> Async) : Async :=
  fun w =>
    match current_record w with
    | Some rec => k rec w
    | None => Throw null_dereference w
    end.

(** [this.currentResearch.p = v]. *)
Definition assign (f : Research -> Research) : Async :=
  withCurrent (fun rec => lift (put (f rec))).

(** [addLog(message)]. *)
Definition addLog (message : string) : Async :=
  fun w =>
    let log := {| timestamp := toLocaleTimeString host (clock w); message := message |} in
    assign (fun rec => set_logs (logs rec ++ [log]) rec) w.

(** [updateProgressBar()]. *)
Definition updateProgressBar : Async :=
  withCurrent (fun rec => lift (set_progressFill (progress rec))).

(** [setTimeout(callback, ms)], as [delay(ms)] calls it. *)
Definition setTimeout (ms : Z) (k : Continuation) (w : World) : World :=
  set_timers (timers w ++ [((clock w + ms)%Z, k)]) w.

(** [executeStep(stepNumber, step)] up to [await this.delay(step.duration)].
    [updateProgressUI] only writes to the page. *)
Definition executeStep_begin (stepNumber : nat) (step : Step) : Async :=
  assign (set_currentStep stepNumber) ;;
  addLog ("Starting " ++ name step ++ "...") ;;
  lift (setTimeout (duration step) (InExecuteStep stepNumber step)).

(** [executeStep] after the [switch]. [markStepCompleted] only writes to
    the page. *)
Definition executeStep_end (stepNumber : nat) (step : Step) : Async :=
  addLog (name step ++ " completed successfully") ;;
  assign (set_progress (progress_of stepNumber)) ;;
  updateProgressBar.

(** The loop of [runResearchWorkflow] from index [i], up to the next
    timer.  After the last step it calls [this.completeResearch()], a
    method the class does not define. *)
Definition runResearchWorkflow_from (i : nat) : Async :=
  match steps !! i with
  | Some step => executeStep_begin (i + 1) step
  | None => Throw (TypeError "this.completeResearch is not a function")
  end.

Definition parseInput : Async :=
  withCurrent (fun rec =>
    addLog ("Validating research topic: " ++ String "034" (topic rec) ++ String "034" "")) ;;
  withCurrent (fun rec => addLog ("Research depth set to: " ++ depth rec)) ;;
  addLog "Input validation completed".

(** [gatherData()] up to the timer of [fetchWikipediaArticles]. *)
Definition gatherData_begin (step : Step) : Async :=
  addLog "Fetching data from external APIs..." ;;
  withCurrent (fun rec => lift (setTimeout 1000 (InFetchWikipedia step (topic rec)))).

(** [gatherData()] from the return of [fetchWikipediaArticles] up to the
    timer of [fetchHackerNewsArticles]. *)
Definition gatherData_sources (step : Step) (topic_arg : string) : Async :=
  fun w =>
    let '(sources, n) := fetchWikipediaArticles topic_arg (randomCalls w) in
    (lift (set_randomCalls n) ;;
     withCurrent (fun rec =>
       lift (setTimeout 1200 (InFetchHackerNews step (topic rec) sources)))) w.

(** [gatherData()] from the return of [fetchHackerNewsArticles]. *)
Definition gatherData_end (topic_arg : string) (sources : list article) : Async :=
  fun w =>
    let '(news, n) := fetchHackerNewsArticles topic_arg (randomCalls w) in
    (lift (set_randomCalls n) ;;
     assign (set_rawData (Some {| wikipedia := sources; hackernews := news |})) ;;
     addLog ("Found " ++ string_of_nat (length sources) ++ " Wikipedia articles") ;;
     addLog ("Found " ++ string_of_nat (length news) ++ " HackerNews articles") ;;
     addLog "Data gathering completed") w.

Definition undefined_dereference : error :=
  TypeError "Cannot read properties of undefined".

Definition processData : Async :=
  addLog "Processing and analyzing collected data..." ;;
  withCurrent (fun rec =>
    let maxArticles := depthMap (depth rec) in
    match rawData rec with
    | None => Throw undefined_dereference
    | Some raw =>
        let allSources := (wikipedia raw ++ hackernews raw)%list in
        let topSources :=
          slice0 maxArticles
            (Array_sort (fun a b => (relevance b - relevance a)%Q) allSources) in
        let summary := generateSummary rec topSources in
        let keywords := extractKeywords (topic rec) topSources in
        assign (set_processedData
                  (Some {| pd_sources := topSources;
                           pd_summary := summary;
                           pd_keywords := keywords |})) ;;
        addLog ("Processed " ++ string_of_nat (length topSources) ++ " top articles") ;;
        addLog ("Generated summary (" ++ string_of_nat (String.length summary)
                ++ " characters)") ;;
        addLog ("Extracted " ++ string_of_nat (length keywords) ++ " keywords") ;;
        addLog "Data processing completed"
    end).

(** ** The History Store: [saveHistory] and [loadHistory] *)

(** The research objects as [JSON.stringify] sees them: own properties in
    creation order. *)
Definition article_value (a : article) : value :=
  VObj [("title", VStr (title a)); ("summary", VStr (summary a));
        ("url", VStr (url a)); ("source", VStr (source a));
        ("relevance", VNum (Dec (relevance a)))].

Definition log_value (l : Log) : value :=
  VObj [("timestamp", VStr (timestamp l)); ("message", VStr (message l))].

Definition string_array (l : list string) : value := VArr (map VStr l).

Definition results_value (res : Results) : value :=
  VObj [("summary", VStr (res_summary res));
        ("sources", VArr (map article_value (res_sources res)));
        ("keywords", string_array (res_keywords res));
        ("metadata",
         VObj [("totalSources", VNum (Int (Z.of_nat (totalSources (metadata res)))));
               ("researchDepth", VStr (researchDepth (metadata res)));
               ("processingTime", VNum (Int (processingTime (metadata res))))])].

Definition rawData_value (raw : RawData) : value :=
  VObj [("wikipedia", VArr (map article_value (wikipedia raw)));
        ("hackernews", VArr (map article_value (hackernews raw)))].

Definition processedData_value (pd : ProcessedData) : value :=
  VObj [("sources", VArr (map article_value (pd_sources pd)));
        ("summary", VStr (pd_summary pd));
        ("keywords", string_array (pd_keywords pd))].

Definition optional_property {A} (key : string) (f : A -> value) (o : option A)
  : list (string * value) :=
  match o with
  | Some x => [(key, f x)]
  | None => []
  end.

Definition research_value (rec : Research) : value :=
  VObj ([("id", VStr (research_id rec));
         ("topic", VStr (topic rec));
         ("depth", VStr (depth rec));
         ("status", VStr (status rec));
         ("startTime", VDate (Some (startTime rec)));
         ("progress", VNum (Dbl (progress rec)));
         ("currentStep", VNum (Int (Z.of_nat (currentStep rec))));
         ("logs", VArr (map log_value (logs rec)));
         ("results", match results rec with
                     | Some res => results_value res
                     | None => VNull
                     end)]
        ++ optional_property "rawData" rawData_value (rawData rec)
        ++ optional_property "processedData" processedData_value (processedData rec)
        ++ optional_property "endTime" (fun t => VDate (Some t)) (endTime rec))%list.

(** [this.researchHistory] as a value. *)
Definition history_value (w : World) : value :=
  VArr (map (fun r => match heap w !! r with
                      | Some rec => research_value rec
                      | None => VUndefined
                      end)
            (researchHistory w)).

(** [JSON.parse(JSON.stringify(v))]: a date becomes its ISO string (an
    invalid one [null]), a number that is not finite becomes [null], an
    [undefined] array element becomes [null] and an [undefined] property
    is left out. *)
Fixpoint json_view (v : value) : value :=
  match v with
  | VUndefined => VNull
  | VNull => VNull
  | VBool b => VBool b
  | VNum (Dbl f) => if is_finite f then VNum (Dbl f) else VNull
  | VNum n => VNum n
  | VStr s => VStr s
  | VDate (Some t) => VStr (toISOString host t)
  | VDate None => VNull
  | VArr items => VArr (map json_view items)
  | VObj fields =>
      VObj ((fix properties (fs : list (string * value)) : list (string * value) :=
               match fs with
               | [] => []
               | (_, VUndefined) :: fs' => properties fs'
               | (key, v') :: fs' => (key, json_view v') :: properties fs'
               end) fields)
  end.

(** [localStorage.setItem('aiResearchHistory', text)] inside a [try]
    whose [catch] only warns: a refused write leaves the item as it was. *)
Definition setItem_try (document : value) (w : World) : World :=
  if setItem_accepts host document
  then set_localStorage (Some (Wellformed document)) w
  else w.

(** [saveHistory()]. *)
Definition saveHistory (w : World) : World :=
  setItem_try (json_view (history_value w)) w.

(** [v[key]] on a parsed value; [None] is the [TypeError] of a property
    read on [null] or [undefined]. *)
Definition property (v : value) (key : string) : option value :=
  match v with
  | VUndefined | VNull => None
  | VObj fields =>
      match List.find (fun kv => String.eqb (fst kv) key) fields with
      | Some kv => Some (snd kv)
      | None => Some VUndefined
      end
  | _ => Some VUndefined
  end.

(** The own enumerable properties that [{...v}] copies. *)
Definition own_properties (v : value) : list (string * value) :=
  match v with
  | VObj fields => fields
  | VArr items => imap (fun i x => (string_of_nat i, x)) items
  | VStr s =>
      imap (fun i c => (string_of_nat i, VStr (String c EmptyString)))
           (list_ascii_of_string s)
  | _ => []
  end.

(** A property of an object literal written after a spread: it replaces
    the copied one in place, or comes last. *)
Fixpoint set_property (key : string) (v : value) (fields : list (string * value))
  : list (string * value) :=
  match fields with
  | [] => [(key, v)]
  | (k, v') :: fields' =>
      if String.eqb k key then (k, v) :: fields'
      else (k, v') :: set_property key v fields'
  end.

Definition number_is_zero_or_nan (n : number) : bool :=
  match n with
  | Int z => Z.eqb z 0
  | Dec q => Qeq_bool q 0
  | Dbl f => PrimFloat.eqb f 0 || is_nan f
  end.

(** [ToBoolean]. *)
Definition truthy (v : value) : bool :=
  match v with
  | VUndefined | VNull => false
  | VBool b => b
  | VNum n => negb (number_is_zero_or_nan n)
  | VStr s => negb (String.eqb s "")
  | _ => true
  end.

(** The callback of [parsed.map] in [loadHistory]. *)
Definition revive (research : value) : option value :=
  startTime_ ← property research "startTime";
  endTime_ ← property research "endTime";
  Some (VObj (own_properties research
              |> set_property "startTime" (VDate (new_Date host startTime_))
              |> set_property "endTime"
                   (if truthy endTime_ then VDate (new_Date host endTime_) else VNull))).

(** The body of the [try] of [loadHistory]: [inr] is what it throws. *)
Definition loadHistory_try (storage : option stored_text) : list value + string :=
  match storage with
  | None => inl []
  | Some (Malformed raw) =>
      if String.eqb raw "" then inl [] else inr "SyntaxError"
  | Some (Wellformed parsed) =>
      match parsed with
      | VArr items =>
          match mapM revive items with
          | Some records => inl records
          | None => inr "TypeError"
          end
      | _ => inr "TypeError"
      end
  end.

(** [loadHistory()]: the [catch] warns on the console and the function
    returns the empty array. *)
Definition loadHistory (storage : option stored_text) : list value :=
  match loadHistory_try storage with
  | inl records => records
  | inr _ => []
  end.

(** ** AIResearchAgent: steps 4 and 5, and the events *)

(** [this.researchHistory.unshift(this.currentResearch)]: the history
    holds the object itself, not a copy. *)
Definition unshift_current (w : World) : World :=
  match currentResearch w with
  | Some r => set_researchHistory (r :: researchHistory w) w
  | None => w
  end.

Definition persistResults : Async :=
  addLog "Saving results to local storage..." ;;
  withCurrent (fun rec w =>
    match processedData rec with
    | None => Throw undefined_dereference w
    | Some pd =>
        (assign (set_results
                   (Some {| res_summary := pd_summary pd;
                            res_sources := pd_sources pd;
                            res_keywords := pd_keywords pd;
                            metadata :=
                              {| totalSources := length (pd_sources pd);
                                 researchDepth := depth rec;
                                 processingTime := (clock w - startTime rec)%Z |} |})) ;;
         lift unshift_current ;;
         lift saveHistory ;;
         addLog "Results saved successfully" ;;
         addLog "Research added to history") w
    end).

(** [populateResults()] writes to the page; it throws when it reads
    [endTime.toLocaleString] or [results.summary] of an absent value. *)
Definition populateResults : Async :=
  withCurrent (fun rec =>
    match endTime rec, results rec with
    | Some _, Some _ => Normal
    | None, _ => Throw undefined_dereference
    | Some _, None => Throw null_dereference
    end).

Definition enableForm (w : World) : World := set_formDisabled false w.
Definition disableForm (w : World) : World := set_formDisabled true w.

(** [showResults()]; [renderHistory] only writes to the page. *)
Definition showResults : Async :=
  populateResults ;;
  lift enableForm.

Definition returnResults : Async :=
  addLog "Preparing results for display..." ;;
  assign (set_status "completed") ;;
  (fun w => assign (set_endTime (Some (clock w))) w) ;;
  addLog "Research workflow completed successfully" ;;
  showResults.

(** What a timer's callback resumes first: the rest of [executeStep], up
    to its return or to its next timer. *)
Definition executeStep_resume (k : Continuation) : Async :=
  match k with
  | InExecuteStep stepNumber step =>
      match stepNumber with
      | 2 => gatherData_begin step
      | _ =>
          match stepNumber with
          | 1 => parseInput
          | 3 => processData
          | 4 => persistResults
          | 5 => returnResults
          | _ => Normal
          end ;;
          executeStep_end stepNumber step
      end%nat
  | InFetchWikipedia step topic_arg => gatherData_sources step topic_arg
  | InFetchHackerNews step topic_arg sources =>
      gatherData_end topic_arg sources ;;
      executeStep_end 2 step
  end.

(** Then, when [executeStep] has returned, the loop of
    [runResearchWorkflow] goes on. *)
Definition loop_resume (k : Continuation) : Async :=
  match k with
  | InExecuteStep 2 _ => Normal
  | InExecuteStep stepNumber _ => runResearchWorkflow_from stepNumber
  | InFetchWikipedia _ _ => Normal
  | InFetchHackerNews _ _ _ => runResearchWorkflow_from 2
  end.

(** The whole turn of a timer's callback. *)
Definition resume (k : Continuation) : Async :=
  executeStep_resume k ;; loop_resume k.

(** [showProgressSection()]: on the page, but for [updateProgressBar]. *)
Definition showProgressSection : Async := updateProgressBar.

(** [startResearch(topic, depth)] up to the first timer. *)
Definition startResearch (topic_arg depth_arg : string) : Async :=
  fun w =>
    let '(id, w1) := generateId w in
    let rec := {| research_id := id; topic := topic_arg; depth := depth_arg;
                  status := "running"; startTime := clock w1; progress := 0;
                  currentStep := 1; logs := []; results := None;
                  rawData := None; processedData := None; endTime := None |} in
    (lift (fun w => set_currentResearch (Some (length (heap w)))
                      (set_heap (heap w ++ [rec]) w)) ;;
     showProgressSection ;;
     lift disableForm ;;
     runResearchWorkflow_from 0) w1.

(** [showError(message)]. *)
Definition showError (message : string) (w : World) : World :=
  set_alerts (alerts w ++ [message]) w.

(** [handleSubmit(e)] with the values of the two form fields, up to the
    first timer. *)
Definition handleSubmit (researchTopic researchDepth : string) : Async :=
  let topic := trim researchTopic in
  let depth := researchDepth in
  if String.eqb topic ""
  then lift (showError "Please enter a research topic")
  else startResearch topic depth.

(** [this.researchHistory.find(r => r.id === researchId)]. *)
Definition findById (researchId : string) (w : World) : option nat :=
  List.find (fun r => match heap w !! r with
                      | Some rec => String.eqb (research_id rec) researchId
                      | None => false
                      end)
            (researchHistory w).

(** [loadResearchFromHistory(researchId)], the click on a history item. *)
Definition loadResearchFromHistory (researchId : string) : Async :=
  fun w =>
    match findById researchId w with
    | None => Normal w
    | Some r =>
        match heap w !! r with
        | Some research =>
            if negb (String.eqb (status research) "completed") then Normal w
            else (lift (set_currentResearch (Some r)) ;; showResults) w
        | None => Normal w
        end
    end.

(** ** The event loop *)

(** The end of a turn: an exception rejects the call chain, unhandled. *)
Definition settle (c : Completion) : World :=
  match c with
  | Normal w => w
  | Throw e w => set_uncaught (uncaught w ++ [e]) w
  end.

(** The timer that fires next: the earliest due, the oldest among equals;
    with it the timers that stay. *)
Fixpoint next_timer (ts : list (Z * Continuation))
  : option ((Z * Continuation) * list (Z * Continuation)) :=
  match ts with
  | [] => None
  | t :: ts' =>
      match next_timer ts' with
      | Some (t', rest) =>
          if (fst t <=? fst t')%Z then Some (t, ts') else Some (t', t :: rest)
      | None => Some (t, [])
      end
  end.

(** The next timer fires and its callback runs [callback]. *)
Definition fire_with (callback : Continuation -> Async) (w : World) : World :=
  match next_timer (timers w) with
  | None => w
  | Some ((due, k), rest) =>
      settle (callback k (set_clock (Z.max due (clock w)) (set_timers rest w)))
  end.

(** One timer fires: a turn of the event loop. *)
Definition fire (w : World) : World := fire_with resume w.

(** The same turn, stopped where [executeStep] returns. *)
Definition fire_to_step_end (w : World) : World := fire_with executeStep_resume w.

(** The user submits the form. *)
Definition submit (researchTopic researchDepth : string) (w : World) : World :=
  settle (handleSubmit researchTopic researchDepth w).

(** [n] timers fire in a row, no other event in between. *)
Fixpoint fire_n (n : nat) (w : World) : World :=
  match n with
  | O => w
  | S n' => fire_n n' (fire w)
  end.

(** A whole run: the submission and the seven timers of its workflow
    (five steps, two fetches). *)
Definition run (researchTopic researchDepth : string) (w : World) : World :=
  fire_n 7 (submit researchTopic researchDepth w).



(** ** Notions used by the statements *)

(** During a run the world has the shape [focus h rec w]: the record of
    the run is [rec], allocated after the older objects [h], and it is
    [this.currentResearch]; [w] gives the other components. *)
Definition focus (h : list Research) (rec : Research) (w : World) : World :=
  set_currentResearch (Some (length h)) (set_heap (h ++ [rec]) w).

(** The comparator of [processData]. *)
Definition by_relevance (a b : article) : Q := relevance b - relevance a.

(** [a] may come before [b]: its relevance is not smaller. *)
Definition not_below (a b : article) : Prop := (relevance b <= relevance a)%Q.

(** The test that picks the entries of relevance [q]. *)
Definition has_relevance (q : Q) (a : article) : bool := Qeq_bool (relevance a) q.

(** [v] is the record [rec] as [loadHistory] gives it back: [startTime] and
    [endTime] are dates of the same instants (an [endTime] not set is
    [null]) and every other property is the stored one. *)
Definition loaded_from (rec : Research) (v : value) : Prop :=
  property v "startTime" = Some (VDate (Some (startTime rec)))
  /\ property v "endTime"
     = Some (match endTime rec with
             | Some e => VDate (Some e)
             | None => VNull
             end)
  /\ forall key,
      key <> "startTime" -> key <> "endTime" ->
      property v key = property (json_view (research_value rec)) key.

(** The host parses back the ISO strings it prints for the dates of [rec],
    and these strings are not empty. *)
Definition dates_roundtrip (rec : Research) : Prop :=
  new_Date host (VStr (toISOString host (startTime rec))) = Some (startTime rec)
  /\ forall e, endTime rec = Some e ->
               new_Date host (VStr (toISOString host e)) = Some e
               /\ toISOString host e <> "".

(** ** Reasoning about a run *)

Lemma lookup_alloc {A} (h : list A) (x : A) : (h ++ [x]) !! length h = Some x.
Proof. rewrite lookup_app_r by lia. by rewrite Nat.sub_diag. Qed.

Lemma insert_alloc {A} (h : list A) (x y : A) :
  <[length h := y]> (h ++ [x]) = h ++ [y].
Proof. rewrite insert_app_r_alt by lia. by rewrite Nat.sub_diag. Qed.

Lemma current_record_focus h rec w : current_record (focus h rec w) = Some rec.
Proof. unfold current_record, focus. cbn. apply lookup_alloc. Qed.

Lemma put_focus h rec rec' w : put rec' (focus h rec w) = focus h rec' w.
Proof. unfold put, focus. cbn. by rewrite insert_alloc. Qed.

Lemma withCurrent_focus k h rec w :
  withCurrent k (focus h rec w) = k rec (focus h rec w).
Proof. unfold withCurrent. by rewrite current_record_focus. Qed.

Lemma assign_focus f h rec w :
  assign f (focus h rec w) = Normal (focus h (f rec) w).
Proof. unfold assign. rewrite withCurrent_focus. unfold lift. by rewrite put_focus. Qed.

Lemma addLog_focus m h rec w :
  addLog m (focus h rec w)
  = Normal (focus h (set_logs (logs rec ++ [{| timestamp := toLocaleTimeString host (clock w);
                                               message := m |}]) rec) w).
Proof. unfold addLog. by rewrite assign_focus. Qed.

Lemma updateProgressBar_focus h rec w :
  updateProgressBar (focus h rec w)
  = Normal (focus h rec (set_progressFill (progress rec) w)).
Proof. unfold updateProgressBar. by rewrite withCurrent_focus. Qed.

Lemma setTimeout_focus ms k h rec w :
  setTimeout ms k (focus h rec w) = focus h rec (setTimeout ms k w).
Proof. reflexivity. Qed.

Lemma set_randomCalls_focus n h rec w :
  set_randomCalls n (focus h rec w) = focus h rec (set_randomCalls n w).
Proof. reflexivity. Qed.

Lemma set_timers_focus ts h rec w :
  set_timers ts (focus h rec w) = focus h rec (set_timers ts w).
Proof. reflexivity. Qed.

Lemma set_clock_focus t h rec w :
  set_clock t (focus h rec w) = focus h rec (set_clock t w).
Proof. reflexivity. Qed.

Lemma set_uncaught_focus es h rec w :
  set_uncaught es (focus h rec w) = focus h rec (set_uncaught es w).
Proof. reflexivity. Qed.

Lemma enableForm_focus h rec w :
  enableForm (focus h rec w) = focus h rec (set_formDisabled false w).
Proof. reflexivity. Qed.

Lemma disableForm_focus h rec w :
  disableForm (focus h rec w) = focus h rec (set_formDisabled true w).
Proof. reflexivity. Qed.

Lemma unshift_current_focus h rec w :
  unshift_current (focus h rec w)
  = focus h rec (set_researchHistory (length h :: researchHistory w) w).
Proof. reflexivity. Qed.

Lemma setItem_try_focus document h rec w :
  setItem_try document (focus h rec w) = focus h rec (setItem_try document w).
Proof. unfold setItem_try. by destruct (setItem_accepts host document). Qed.

Lemma clock_focus h rec w : clock (focus h rec w) = clock w.
Proof. reflexivity. Qed.

Lemma randomCalls_focus h rec w : randomCalls (focus h rec w) = randomCalls w.
Proof. reflexivity. Qed.

Lemma timers_focus h rec w : timers (focus h rec w) = timers w.
Proof. reflexivity. Qed.

Lemma uncaught_focus h rec w : uncaught (focus h rec w) = uncaught w.
Proof. reflexivity. Qed.

Lemma researchHistory_focus h rec w :
  researchHistory (focus h rec w) = researchHistory w.
Proof. reflexivity. Qed.

Lemma heap_focus h rec w : heap (focus h rec w) = h ++ [rec].
Proof. reflexivity. Qed.

Lemma currentResearch_focus h rec w :
  currentResearch (focus h rec w) = Some (length h).
Proof. reflexivity. Qed.

(** The components of a world that a refused or accepted write leaves alone. *)
Lemma setItem_try_frame document w :
  currentResearch (setItem_try document w) = currentResearch w
  /\ researchHistory (setItem_try document w) = researchHistory w
  /\ heap (setItem_try document w) = heap w
  /\ clock (setItem_try document w) = clock w
  /\ randomCalls (setItem_try document w) = randomCalls w
  /\ timers (setItem_try document w) = timers w
  /\ formDisabled (setItem_try document w) = formDisabled w
  /\ progressFill (setItem_try document w) = progressFill w
  /\ alerts (setItem_try document w) = alerts w
  /\ uncaught (setItem_try document w) = uncaught w.
Proof. unfold setItem_try. by destruct (setItem_accepts host document). Qed.

Lemma clock_setItem_try document w : clock (setItem_try document w) = clock w.
Proof. apply setItem_try_frame. Qed.

Lemma timers_setItem_try document w : timers (setItem_try document w) = timers w.
Proof. apply setItem_try_frame. Qed.

Lemma randomCalls_setItem_try document w :
  randomCalls (setItem_try document w) = randomCalls w.
Proof. apply setItem_try_frame. Qed.

Lemma uncaught_setItem_try document w :
  uncaught (setItem_try document w) = uncaught w.
Proof. apply setItem_try_frame. Qed.

Lemma researchHistory_setItem_try document w :
  researchHistory (setItem_try document w) = researchHistory w.
Proof. apply setItem_try_frame. Qed.

Lemma formDisabled_setItem_try document w :
  formDisabled (setItem_try document w) = formDisabled w.
Proof. apply setItem_try_frame. Qed.

(** The loop of [runResearchWorkflow], index by index. *)
Lemma loop_from_0 :
  runResearchWorkflow_from 0
  = executeStep_begin 1 {| name := "Input Parsing"; duration := 1000 |}.
Proof. reflexivity. Qed.

Lemma loop_from_1 :
  runResearchWorkflow_from 1
  = executeStep_begin 2 {| name := "Data Gathering"; duration := 3000 |}.
Proof. reflexivity. Qed.

Lemma loop_from_2 :
  runResearchWorkflow_from 2
  = executeStep_begin 3 {| name := "Processing"; duration := 4000 |}.
Proof. reflexivity. Qed.

Lemma loop_from_3 :
  runResearchWorkflow_from 3
  = executeStep_begin 4 {| name := "Result Persistence"; duration := 1500 |}.
Proof. reflexivity. Qed.

Lemma loop_from_4 :
  runResearchWorkflow_from 4
  = executeStep_begin 5 {| name := "Return Results"; duration := 1000 |}.
Proof. reflexivity. Qed.

Lemma loop_from_5 :
  runResearchWorkflow_from 5
  = Throw (TypeError "this.completeResearch is not a function").
Proof. reflexivity. Qed.

Lemma fire_with_focus callback h rec w due k rest :
  next_timer (timers w) = Some ((due, k), rest) ->
  fire_with callback (focus h rec w)
  = settle (callback k (focus h rec (set_clock (Z.max due (clock w)) (set_timers rest w)))).
Proof. intros H. unfold fire_with. by rewrite timers_focus, H. Qed.

(** [startResearch] allocates the record of the run and focuses on it. *)
Lemma startResearch_focus topic_arg depth_arg w :
  startResearch topic_arg depth_arg w
  = (showProgressSection ;; lift disableForm ;; runResearchWorkflow_from 0)
      (focus (heap w)
         {| research_id :=
              ("research_" ++ string_of_Z (clock w) ++ "_"
               ++ substring 2 9 (toString36 host (Math_random host (randomCalls w))))%string;
            topic := topic_arg; depth := depth_arg; status := "running";
            startTime := clock w; progress := 0; currentStep := 1; logs := [];
            results := None; rawData := None; processedData := None;
            endTime := None |}
         (set_randomCalls (S (randomCalls w)) w)).
Proof. reflexivity. Qed.

(** Symbolic execution of a turn on a focused world: the combinators and
    the record operations are unfolded, each primitive is rewritten by its
    equation on [focus]. *)
Ltac simp_world :=
  cbn [currentResearch researchHistory heap localStorage clock randomCalls timers
       formDisabled progressFill alerts uncaught
       set_currentResearch set_researchHistory set_heap set_localStorage set_clock
       set_randomCalls set_timers set_formDisabled set_progressFill set_alerts
       set_uncaught setTimeout app].

Ltac simp_rec :=
  cbv beta iota zeta delta
    [research_id topic depth status startTime progress currentStep logs results
     rawData processedData endTime
     set_status set_progress set_currentStep set_logs set_results set_rawData
     set_processedData set_endTime
     name duration wikipedia hackernews pd_sources pd_summary pd_keywords fst snd
     generateSummary andThen lift executeStep_begin executeStep_end parseInput
     gatherData_begin gatherData_sources gatherData_end processData persistResults
     populateResults showResults returnResults resume executeStep_resume loop_resume
     showProgressSection saveHistory settle].

Ltac exec1 :=
  first
    [ progress simp_rec | progress simp_world
    | rewrite loop_from_0 | rewrite loop_from_1 | rewrite loop_from_2
    | rewrite loop_from_3 | rewrite loop_from_4 | rewrite loop_from_5
    | rewrite assign_focus | rewrite addLog_focus | rewrite withCurrent_focus
    | rewrite updateProgressBar_focus | rewrite setTimeout_focus
    | rewrite set_randomCalls_focus | rewrite set_timers_focus
    | rewrite set_clock_focus | rewrite set_uncaught_focus
    | rewrite enableForm_focus | rewrite disableForm_focus
    | rewrite unshift_current_focus | rewrite setItem_try_focus
    | rewrite clock_focus | rewrite randomCalls_focus | rewrite timers_focus
    | rewrite uncaught_focus
    | rewrite timers_setItem_try | rewrite clock_setItem_try
    | rewrite randomCalls_setItem_try | rewrite uncaught_setItem_try ].

Ltac exec := repeat exec1.

(** The timer fires: [Ht] says that no timer was pending before the run. *)
Ltac turn Ht :=
  unfold fire, fire_to_step_end;
  erewrite fire_with_focus
    by (simp_world; rewrite ?timers_setItem_try; simp_world; rewrite ?Ht;
        cbn [app next_timer]; reflexivity);
  simp_world; rewrite ?clock_setItem_try; simp_world; rewrite ?Z.max_l by lia.

(** The worlds of a run that no other event interrupts: [w0] after the
    submission, [w1] to [w7] after each of the seven timers, and [e1] to
    [e5] where each call of [executeStep] returns. *)
Lemma run_trace topic_arg depth_arg w :
  timers w = [] ->
  exists sources n1 news n2,
    fetchWikipediaArticles topic_arg (S (randomCalls w)) = (sources, n1)
    /\ fetchHackerNewsArticles topic_arg n1 = (news, n2)
    /\ exists r0 x0 r1 x1 r2 x2 r3 x3 r4 x4 r5 x5 r6 x6 r7 x7 q1 y1 q2 y2 q3 y3 q4 y4 q5 y5,
      let h := heap w in
      settle (startResearch topic_arg depth_arg w) = focus h r0 x0
      /\ fire (focus h r0 x0) = focus h r1 x1
      /\ fire (focus h r1 x1) = focus h r2 x2
      /\ fire (focus h r2 x2) = focus h r3 x3
      /\ fire (focus h r3 x3) = focus h r4 x4
      /\ fire (focus h r4 x4) = focus h r5 x5
      /\ fire (focus h r5 x5) = focus h r6 x6
      /\ fire (focus h r6 x6) = focus h r7 x7
      /\ fire_to_step_end (focus h r0 x0) = focus h q1 y1
      /\ fire_to_step_end (focus h r3 x3) = focus h q2 y2
      /\ fire_to_step_end (focus h r4 x4) = focus h q3 y3
      /\ fire_to_step_end (focus h r5 x5) = focus h q4 y4
      /\ fire_to_step_end (focus h r6 x6) = focus h q5 y5
      /\ map (fun r => (currentStep r, progress r)) [r0; r1; r2; r3; r4; r5; r6; r7]
         = [(1, 0%float); (2, 20%float); (2, 20%float); (2, 20%float); (3, 40%float);
            (4, 60%float); (5, 80%float); (5, 100%float)]
      /\ map (fun r => (currentStep r, progress r)) [q1; q2; q3; q4; q5]
         = [(1, 20%float); (2, 40%float); (3, 60%float); (4, 80%float); (5, 100%float)]
      /\ map formDisabled [x0; x1; x2; x3; x4; x5; x6]
         = [true; true; true; true; true; true; true]
      /\ (status r0 = "running" /\ researchHistory x0 = researchHistory w
          /\ formDisabled x0 = true /\ uncaught x0 = uncaught w)
      /\ (status r6 = "running" /\ endTime r6 = None
          /\ researchHistory x6 = length h :: researchHistory w
          /\ research_id r7 = research_id r6 /\ topic r7 = topic r6
          /\ depth r7 = depth r6 /\ startTime r7 = startTime r6
          /\ results r7 = results r6 /\ rawData r7 = rawData r6
          /\ processedData r7 = processedData r6
          /\ exists l1 l2 l3, logs r7 = logs r6 ++ [l1; l2; l3])
      /\ (status r7 = "completed" /\ topic r7 = topic_arg /\ depth r7 = depth_arg
          /\ endTime r7 = Some (clock w + 12700)%Z
          /\ rawData r7 = Some {| wikipedia := sources; hackernews := news |}
          /\ (let topSources :=
                 slice0 (depthMap depth_arg)
                   (Array_sort (fun a b => (relevance b - relevance a)%Q)
                      (sources ++ news)) in
               results r7
               = Some {| res_summary := summary_template topic_arg (length topSources);
                         res_sources := topSources;
                         res_keywords := extractKeywords topic_arg topSources;
                         metadata :=
                           {| totalSources := length topSources;
                              researchDepth := depth_arg;
                              processingTime := 11700 |} |})
          /\ researchHistory x7 = length h :: researchHistory w
          /\ formDisabled x7 = false
          /\ timers x7 = []
          /\ uncaught x7
             = uncaught w ++ [TypeError "this.completeResearch is not a function"]).
Proof.
  intros Ht.
  destruct (fetchWikipediaArticles topic_arg (S (randomCalls w))) as [sources n1] eqn:Ew.
  destruct (fetchHackerNewsArticles topic_arg n1) as [news n2] eqn:Eh.
  exists sources, n1, news, n2. split; [done|]. split; [done|].
  do 26 eexists. cbv zeta.
  split. { rewrite startResearch_focus. exec. reflexivity. }
  split. { turn Ht. exec. reflexivity. }
  split. { turn Ht. exec. reflexivity. }
  split. { turn Ht. exec. rewrite Ew. exec. reflexivity. }
  split. { turn Ht. exec. rewrite Eh. exec. reflexivity. }
  split. { turn Ht. exec. reflexivity. }
  split. { turn Ht. exec. reflexivity. }
  split. { turn Ht. exec. reflexivity. }
  split. { turn Ht. exec. reflexivity. }
  split. { turn Ht. exec. rewrite Eh. exec. reflexivity. }
  split. { turn Ht. exec. reflexivity. }
  split. { turn Ht. exec. reflexivity. }
  split. { turn Ht. exec. reflexivity. }
  split. { reflexivity. }
  split. { reflexivity. }
  split.
  { cbn [map]. simp_world. rewrite ?formDisabled_setItem_try. simp_world. reflexivity. }
  split. { repeat split. }
  split.
  { repeat split; try reflexivity.
    - simp_world. by rewrite researchHistory_setItem_try.
    - do 3 eexists. cbn [logs]. reflexivity. }
  repeat split; try reflexivity.
  - cbn [endTime]. f_equal. lia.
  - cbn [results]. do 3 f_equal. lia.
  - simp_world. by rewrite researchHistory_setItem_try.
Qed.

(** ** The sort of [processData] *)

Lemma by_relevance_le a b :
  Qle_bool (by_relevance a b) 0 = true <-> not_below a b.
Proof.
  unfold by_relevance, not_below. rewrite Qle_bool_iff.
  split; intros H.
  - apply Qplus_le_l with (z := (- relevance a)%Q).
    rewrite Qplus_opp_r. exact H.
  - apply Qplus_le_l with (z := (- relevance a)%Q) in H.
    rewrite Qplus_opp_r in H. exact H.
Qed.

Lemma by_relevance_gt a b :
  Qle_bool (by_relevance a b) 0 = false -> (relevance a < relevance b)%Q.
Proof.
  intros H. apply Qnot_le_lt. intros Hle.
  apply by_relevance_le in Hle. congruence.
Qed.

Lemma sort_insert_HdRel x y l :
  not_below y x -> HdRel not_below y l -> HdRel not_below y (sort_insert by_relevance x l).
Proof.
  intros Hyx Hl. destruct l as [|z l]; cbn.
  - by constructor.
  - destruct (Qle_bool (by_relevance x z) 0); constructor; [done|].
    by inversion Hl.
Qed.

Lemma sort_insert_sorted x l :
  Sorted not_below l -> Sorted not_below (sort_insert by_relevance x l).
Proof.
  induction 1 as [|y l Hl IH Hy]; cbn.
  - by repeat constructor.
  - destruct (Qle_bool (by_relevance x y) 0) eqn:E.
    + constructor; [by constructor|].
      constructor. by apply by_relevance_le.
    + constructor; [exact IH|].
      apply sort_insert_HdRel; [|exact Hy].
      apply Qlt_le_weak. by apply by_relevance_gt.
Qed.

(** The result of the sort is in descending order of relevance. *)
Lemma Array_sort_sorted l : Sorted not_below (Array_sort by_relevance l).
Proof.
  induction l as [|x l IH]; cbn; [constructor|].
  by apply sort_insert_sorted.
Qed.

Lemma sort_insert_filter q x l :
  List.filter (has_relevance q) (sort_insert by_relevance x l)
  = List.filter (has_relevance q) (x :: l).
Proof.
  induction l as [|y l IH]; [done|].
  cbn [sort_insert]. destruct (Qle_bool (by_relevance x y) 0) eqn:E; [done|].
  apply by_relevance_gt in E.
  cbn [List.filter] in *. rewrite IH.
  destruct (has_relevance q x) eqn:Hx, (has_relevance q y) eqn:Hy; try done.
  exfalso. unfold has_relevance in *.
  apply Qeq_bool_iff in Hx, Hy. rewrite Hx, Hy in E.
  by apply Qlt_irrefl in E.
Qed.

(** The sort is stable: the entries of one relevance keep their order. *)
Lemma Array_sort_stable q l :
  List.filter (has_relevance q) (Array_sort by_relevance l)
  = List.filter (has_relevance q) l.
Proof.
  induction l as [|x l IH]; [done|].
  cbn [Array_sort]. rewrite sort_insert_filter. cbn [List.filter].
  by rewrite IH.
Qed.

Lemma sort_insert_length x (l : list article) :
  length (sort_insert by_relevance x l) = S (length l).
Proof.
  induction l as [|y l IH]; [done|].
  cbn. destruct (Qle_bool (by_relevance x y) 0); cbn; by rewrite ?IH.
Qed.

Lemma Array_sort_length (l : list article) :
  length (Array_sort by_relevance l) = length l.
Proof.
  induction l as [|x l IH]; [done|].
  cbn. by rewrite sort_insert_length, IH.
Qed.

Lemma sort_insert_perm x (l : list article) :
  sort_insert by_relevance x l ≡ₚ x :: l.
Proof.
  induction l as [|y l IH]; [done|].
  cbn. destruct (Qle_bool (by_relevance x y) 0); [done|].
  rewrite IH. apply Permutation_swap.
Qed.

(** The sort keeps every entry. *)
Lemma Array_sort_perm (l : list article) : Array_sort by_relevance l ≡ₚ l.
Proof.
  induction l as [|x l IH]; [done|].
  cbn. by rewrite sort_insert_perm, IH.
Qed.

Lemma Sorted_firstn {A} (R : A -> A -> Prop) n l :
  Sorted R l -> Sorted R (firstn n l).
Proof.
  intros H. revert n. induction H as [|x l Hl IH Hx]; intros [|n]; cbn; try constructor.
  - apply IH.
  - destruct Hx, n; cbn; by constructor.
Qed.

Lemma Sorted_adjacent {A} (R : A -> A -> Prop) (l : list A) i a b :
  Sorted R l -> l !! i = Some a -> l !! S i = Some b -> R a b.
Proof.
  intros H. revert i. induction H as [|x l Hl IH Hx]; intros i Ha Hb; [done|].
  destruct i as [|i].
  - cbn in Ha, Hb. destruct Hx; [done|]. cbn in Hb. congruence.
  - by apply (IH i).
Qed.

Lemma filter_firstn_prefix {A} (f : A -> bool) n (l : list A) :
  List.filter f (firstn n l) `prefix_of` List.filter f l.
Proof.
  revert n. induction l as [|x l IH]; intros [|n]; cbn; try apply prefix_nil.
  destruct (f x); [apply prefix_cons|]; apply IH.
Qed.

Lemma slice0_sorted {A} (R : A -> A -> Prop) end_ (l : list A) :
  Sorted R l -> Sorted R (slice0 end_ l).
Proof. destruct end_; cbn; [apply Sorted_firstn|done]. Qed.

Lemma slice0_filter_prefix {A} (f : A -> bool) end_ (l : list A) :
  List.filter f (slice0 end_ l) `prefix_of` List.filter f l.
Proof. destruct end_; cbn; [apply filter_firstn_prefix|done]. Qed.

Lemma slice0_length {A} end_ (l : list A) : length (slice0 end_ l) <= length l.
Proof. destruct end_; cbn; [rewrite length_firstn|]; lia. Qed.

Lemma slice0_length_cap {A} n (l : list A) : length (slice0 (Some n) l) <= n.
Proof. cbn. rewrite length_firstn. lia. Qed.

(** ** The two fetches *)

Lemma filter_relevant_sublist topic_arg data n :
  (filter_relevant topic_arg data n).1 `sublist_of` data.
Proof.
  revert n. induction data as [|a data IH]; intros n; [done|].
  cbn. destruct (is_relevant topic_arg a n) as [keep n1].
  specialize (IH n1). destruct (filter_relevant topic_arg data n1) as [kept n2].
  cbn in *. destruct keep; by constructor.
Qed.

Lemma fetchWikipediaArticles_spec topic_arg n :
  (fetchWikipediaArticles topic_arg n).1 `sublist_of` generateWikipediaData
  /\ length (fetchWikipediaArticles topic_arg n).1 <= 8.
Proof.
  unfold fetchWikipediaArticles.
  pose proof (filter_relevant_sublist topic_arg generateWikipediaData n) as H.
  destruct (filter_relevant topic_arg generateWikipediaData n) as [l n']. cbn in *.
  split; [|rewrite length_firstn; lia].
  etrans; [|exact H]. apply sublist_take.
Qed.

Lemma fetchHackerNewsArticles_spec topic_arg n :
  (fetchHackerNewsArticles topic_arg n).1 `sublist_of` generateHackerNewsData
  /\ length (fetchHackerNewsArticles topic_arg n).1 <= 7.
Proof.
  unfold fetchHackerNewsArticles.
  pose proof (filter_relevant_sublist topic_arg generateHackerNewsData n) as H.
  destruct (filter_relevant topic_arg generateHackerNewsData n) as [l n']. cbn in *.
  split; [|rewrite length_firstn; lia].
  etrans; [|exact H]. apply sublist_take.
Qed.

(** ** Submissions and whole runs *)

Lemma submit_startResearch researchTopic researchDepth w :
  trim researchTopic <> "" ->
  submit researchTopic researchDepth w
  = settle (startResearch (trim researchTopic) researchDepth w).
Proof.
  intros H. unfold submit, handleSubmit.
  by destruct (String.eqb_spec (trim researchTopic) "").
Qed.


(** A submission with a topic, whatever the world: the first turn ends
    without an exception, a new record, running, is the current one and
    the first timer is set. *)
Lemma handleSubmit_focus researchTopic researchDepth w :
  trim researchTopic <> "" ->
  exists rec x,
    handleSubmit researchTopic researchDepth w = Normal (focus (heap w) rec x)
    /\ status rec = "running" /\ topic rec = trim researchTopic
    /\ depth rec = researchDepth /\ results rec = None
    /\ researchHistory x = researchHistory w
    /\ localStorage x = localStorage w
    /\ formDisabled x = true
    /\ uncaught x = uncaught w
    /\ timers x
       = timers w ++ [((clock w + 1000)%Z,
                       InExecuteStep 1 {| name := "Input Parsing"; duration := 1000 |})].
Proof.
  intros H. unfold handleSubmit.
  destruct (String.eqb_spec (trim researchTopic) ""); [done|].
  do 2 eexists. split.
  { rewrite startResearch_focus. exec. reflexivity. }
  repeat split.
Qed.

(** The end of a run that no other event interrupts. *)
Lemma run_completed researchTopic researchDepth w :
  timers w = [] -> trim researchTopic <> "" ->
  exists sources n1 news n2 rec x,
    fetchWikipediaArticles (trim researchTopic) (S (randomCalls w)) = (sources, n1)
    /\ fetchHackerNewsArticles (trim researchTopic) n1 = (news, n2)
    /\ run researchTopic researchDepth w = focus (heap w) rec x
    /\ status rec = "completed"
    /\ topic rec = trim researchTopic
    /\ depth rec = researchDepth
    /\ rawData rec = Some {| wikipedia := sources; hackernews := news |}
    /\ (let topSources :=
           slice0 (depthMap researchDepth)
             (Array_sort by_relevance (sources ++ news)) in
         results rec
         = Some {| res_summary := summary_template (trim researchTopic) (length topSources);
                   res_sources := topSources;
                   res_keywords := extractKeywords (trim researchTopic) topSources;
                   metadata :=
                     {| totalSources := length topSources;
                        researchDepth := researchDepth;
                        processingTime := 11700 |} |})
    /\ researchHistory x = length (heap w) :: researchHistory w
    /\ formDisabled x = false
    /\ timers x = [].
Proof.
  intros Ht Htopic.
  destruct (run_trace (trim researchTopic) researchDepth w Ht)
    as (sources & n1 & news & n2 & Ew & Eh & r0 & x0 & r1 & x1 & r2 & x2 & r3 & x3
        & r4 & x4 & r5 & x5 & r6 & x6 & r7 & x7 & q1 & y1 & q2 & y2 & q3 & y3
        & q4 & y4 & q5 & y5 & H).
  cbv zeta in H.
  destruct H as (E0 & E1 & E2 & E3 & E4 & E5 & E6 & E7 & _ & _ & _ & _ & _ & _ & _
                 & _ & _ & _ & Hs & Htp & Hd & _ & Hraw & Hres & Hh & Hf & Htm & _).
  exists sources, n1, news, n2, r7, x7.
  repeat split; try done.
  unfold run. cbn [fire_n]. rewrite submit_startResearch by done.
  by rewrite E0, E1, E2, E3, E4, E5, E6.
Qed.

(** ** The sources of a completed run *)

(** C2. For every submission with a non-empty topic (after trimming), run
    with no other event in between, the record ends completed and its
    [results.sources] has at most 5, 10 or 15 entries for the depth
    [basic], [detailed] or [comprehensive], and at most 15 in any case,
    because the two fetches return at most 8 and at most 7 articles. *)
Theorem sources_within_caps researchTopic researchDepth w :
  timers w = [] -> trim researchTopic <> "" ->
  exists rec res raw,
    current_record (run researchTopic researchDepth w) = Some rec
    /\ status rec = "completed"
    /\ results rec = Some res
    /\ rawData rec = Some raw
    /\ length (wikipedia raw) <= 8
    /\ length (hackernews raw) <= 7
    /\ length (res_sources res) <= 15
    /\ (researchDepth = "basic" -> length (res_sources res) <= 5)
    /\ (researchDepth = "detailed" -> length (res_sources res) <= 10)
    /\ (researchDepth = "comprehensive" -> length (res_sources res) <= 15).
Proof.
  intros Ht Htopic.
  destruct (run_completed researchTopic researchDepth w Ht Htopic)
    as (sources & n1 & news & n2 & rec & x & Ew & Eh & Erun & Hs & _ & _ & Hraw & Hres & _).
  cbv zeta in Hres.
  pose proof (fetchWikipediaArticles_spec (trim researchTopic) (S (randomCalls w))) as [_ Hw].
  pose proof (fetchHackerNewsArticles_spec (trim researchTopic) n1) as [_ Hn].
  rewrite Ew in Hw. rewrite Eh in Hn. cbn in Hw, Hn.
  eexists rec, _, _. rewrite Erun, current_record_focus.
  split; [done|]. split; [done|]. split; [exact Hres|]. split; [exact Hraw|].
  cbn [wikipedia hackernews res_sources].
  split; [done|]. split; [done|].
  split.
  { etrans; [apply slice0_length|].
    rewrite Array_sort_length, length_app. lia. }
  repeat split; intros ->; apply slice0_length_cap.
Qed.

(** C3. In every completed run, [results.sources] is in descending order
    of relevance (of two adjacent entries the first is not less relevant),
    and the sort is stable: the entries of one relevance are, in their
    order, the first ones of that relevance in the merged list, which is
    the Wikipedia selection followed by the HackerNews selection, each in
    catalogue order. *)
Theorem sources_sorted_stable researchTopic researchDepth w :
  timers w = [] -> trim researchTopic <> "" ->
  exists rec res raw,
    current_record (run researchTopic researchDepth w) = Some rec
    /\ status rec = "completed"
    /\ results rec = Some res
    /\ rawData rec = Some raw
    /\ (forall i a b,
          res_sources res !! i = Some a -> res_sources res !! S i = Some b ->
          (relevance b <= relevance a)%Q)
    /\ (forall q,
          List.filter (has_relevance q) (res_sources res)
          `prefix_of` List.filter (has_relevance q) (wikipedia raw ++ hackernews raw))
    /\ wikipedia raw `sublist_of` generateWikipediaData
    /\ hackernews raw `sublist_of` generateHackerNewsData.
Proof.
  intros Ht Htopic.
  destruct (run_completed researchTopic researchDepth w Ht Htopic)
    as (sources & n1 & news & n2 & rec & x & Ew & Eh & Erun & Hs & _ & _ & Hraw & Hres & _).
  cbv zeta in Hres.
  pose proof (fetchWikipediaArticles_spec (trim researchTopic) (S (randomCalls w))) as [Hw _].
  pose proof (fetchHackerNewsArticles_spec (trim researchTopic) n1) as [Hn _].
  rewrite Ew in Hw. rewrite Eh in Hn. cbn in Hw, Hn.
  eexists rec, _, _. rewrite Erun, current_record_focus.
  split; [done|]. split; [done|]. split; [exact Hres|]. split; [exact Hraw|].
  cbn [wikipedia hackernews res_sources].
  split.
  { intros i a b Ha Hb.
    eapply (Sorted_adjacent not_below); [|exact Ha|exact Hb].
    apply slice0_sorted, Array_sort_sorted. }
  split; [|done].
  intros q. etrans; [apply slice0_filter_prefix|].
  by rewrite Array_sort_stable.
Qed.

(** ** The steps of a run *)

(** [progress_of] on the five step numbers: the binary64 division and
    multiplication give the multiples of 20 exactly. *)
Lemma progress_of_steps :
  map progress_of [1; 2; 3; 4; 5] = [20; 40; 60; 80; 100]%float.
Proof. reflexivity. Qed.


(** ** Submissions *)

(** C1, as the code has it. [handleSubmit] does not look at the run in
    progress and there is no [RunInProgressError]: a submission with a
    non-empty topic is accepted whatever the state. It creates a new record
    with status 'running', makes it the current one and sets its first
    timer; the history is unchanged. What the code does against a second
    submission is to disable the form's controls, from [startResearch] to
    [showResults]. A run that no other event interrupts ends with status
    'completed' and the form enabled again. *)
Theorem submission_always_accepted researchTopic researchDepth w :
  trim researchTopic <> "" ->
  exists rec,
    handleSubmit researchTopic researchDepth w
    = Normal (submit researchTopic researchDepth w)
    /\ currentResearch (submit researchTopic researchDepth w) = Some (length (heap w))
    /\ heap (submit researchTopic researchDepth w) = heap w ++ [rec]
    /\ status rec = "running"
    /\ topic rec = trim researchTopic
    /\ researchHistory (submit researchTopic researchDepth w) = researchHistory w
    /\ formDisabled (submit researchTopic researchDepth w) = true
    /\ length (timers (submit researchTopic researchDepth w)) = S (length (timers w))
    /\ (timers w = [] ->
        Forall (fun i => formDisabled (fire_n i (submit researchTopic researchDepth w)) = true)
               [0; 1; 2; 3; 4; 5; 6]
        /\ exists rec',
            current_record (run researchTopic researchDepth w) = Some rec'
            /\ status rec' = "completed"
            /\ formDisabled (run researchTopic researchDepth w) = false
            /\ timers (run researchTopic researchDepth w) = []).
Proof.
  intros Htopic.
  assert (timers w = [] ->
          Forall (fun i => formDisabled (fire_n i (submit researchTopic researchDepth w))
                           = true)
                 [0; 1; 2; 3; 4; 5; 6]
          /\ exists rec',
              current_record (run researchTopic researchDepth w) = Some rec'
              /\ status rec' = "completed"
              /\ formDisabled (run researchTopic researchDepth w) = false
              /\ timers (run researchTopic researchDepth w) = []) as Hrun.
  { intros Ht. split.
    - destruct (run_trace (trim researchTopic) researchDepth w Ht)
        as (sources & n1 & news & n2 & _ & _ & r0 & x0 & r1 & x1 & r2 & x2 & r3 & x3
            & r4 & x4 & r5 & x5 & r6 & x6 & r7 & x7 & q1 & y1 & q2 & y2 & q3 & y3
            & q4 & y4 & q5 & y5 & H).
      cbv zeta in H.
      destruct H as (E0 & E1 & E2 & E3 & E4 & E5 & E6 & _ & _ & _ & _ & _ & _ & _ & _
                     & Hdis & _).
      cbn [map] in Hdis.
      rewrite submit_startResearch by done.
      repeat constructor; cbn [fire_n];
        rewrite ?E0, ?E1, ?E2, ?E3, ?E4, ?E5, ?E6;
        cbn [formDisabled focus set_currentResearch set_heap]; congruence.
    - destruct (run_completed researchTopic researchDepth w Ht Htopic)
        as (sources & n1 & news & n2 & rec' & x' & _ & _ & Erun & Hs' & _ & _ & _ & _
            & _ & Hf' & Htm').
      exists rec'. rewrite Erun, current_record_focus, timers_focus. by split_and!. }
  destruct (handleSubmit_focus researchTopic researchDepth w Htopic)
    as (rec & x & E & Hs & Htp & _ & _ & Hh & _ & Hf & _ & Htm).
  exists rec. split_and!; [| | | | | | | |exact Hrun];
    unfold submit; rewrite ?E; cbn [settle];
    rewrite ?currentResearch_focus, ?heap_focus, ?researchHistory_focus, ?timers_focus;
    try done.
  rewrite Htm, length_app. cbn. lia.
Qed.


(** ** The record in the history *)


(** ** Saving and loading the history *)

Lemma property_set_property_eq key v fields :
  property (VObj (set_property key v fields)) key = Some v.
Proof.
  induction fields as [|[k v'] fields IH]; cbn.
  - by rewrite String.eqb_refl.
  - destruct (String.eqb k key) eqn:E; cbn; rewrite E; [done|].
    exact IH.
Qed.

Lemma property_set_property_ne key key' v fields :
  key' <> key ->
  property (VObj (set_property key v fields)) key' = property (VObj fields) key'.
Proof.
  intros Hne. induction fields as [|[k v'] fields IH]; cbn.
  - by destruct (String.eqb_spec key key').
  - destruct (String.eqb_spec k key) as [->|Hk]; cbn.
    + by destruct (String.eqb_spec key key').
    + destruct (String.eqb k key'); [done|]. exact IH.
Qed.

(** What [revive] makes of a parsed object. *)
Lemma revive_object fields :
  exists startTime_ endTime_,
    property (VObj fields) "startTime" = Some startTime_
    /\ property (VObj fields) "endTime" = Some endTime_
    /\ revive (VObj fields)
       = Some (VObj (set_property "endTime"
                       (if truthy endTime_ then VDate (new_Date host endTime_) else VNull)
                       (set_property "startTime" (VDate (new_Date host startTime_))
                          fields))).
Proof.
  unfold revive, property.
  destruct (List.find _ fields) as [kv|], (List.find _ fields) as [kv'|];
    do 2 eexists; by repeat split.
Qed.

Lemma json_view_research_object rec :
  exists fields, json_view (research_value rec) = VObj fields.
Proof. by eexists. Qed.

(** The date properties of a stored record. *)
Lemma stored_dates rec :
  property (json_view (research_value rec)) "startTime"
  = Some (VStr (toISOString host (startTime rec)))
  /\ property (json_view (research_value rec)) "endTime"
     = Some (match endTime rec with
             | Some e => VStr (toISOString host e)
             | None => VUndefined
             end).
Proof.
  unfold research_value.
  destruct (results rec), (rawData rec), (processedData rec), (endTime rec);
    by split.
Qed.

(** Serialized and revived, a record comes back with its dates. *)
Lemma revive_research rec :
  dates_roundtrip rec ->
  exists v, revive (json_view (research_value rec)) = Some v /\ loaded_from rec v.
Proof.
  intros [Hstart Hend].
  destruct (json_view_research_object rec) as [fields Hfields].
  destruct (revive_object fields) as (s_ & e_ & Hs & He & Hrev).
  destruct (stored_dates rec) as (Hs' & He').
  rewrite Hfields in Hs', He' |- *.
  rewrite Hs' in Hs. injection Hs as <-.
  rewrite He' in He. injection He as <-.
  eexists. split; [exact Hrev|].
  split_and!.
  - rewrite property_set_property_ne by done.
    rewrite property_set_property_eq. by rewrite Hstart.
  - rewrite property_set_property_eq.
    destruct (endTime rec) as [e|]; [|done].
    destruct (Hend e eq_refl) as [Hparse Hne]. cbn [truthy].
    destruct (String.eqb_spec (toISOString host e) ""); [done|].
    cbn. by rewrite Hparse.
  - intros key Hk1 Hk2. rewrite !property_set_property_ne by done.
    by rewrite Hfields.
Qed.

Lemma revive_all records :
  Forall dates_roundtrip records ->
  exists loaded,
    mapM revive (map json_view (map research_value records)) = Some loaded
    /\ Forall2 loaded_from records loaded.
Proof.
  induction 1 as [|rec records Hrec _ (loaded & Hl & Hall)].
  - by exists [].
  - destruct (revive_research rec Hrec) as (v & Hv & Hfrom).
    exists (v :: loaded). split; [|by constructor].
    cbn [map mapM]. rewrite Hv. cbn. by rewrite Hl.
Qed.

(** C7. Appending a record to the history (the [unshift] and the
    [saveHistory] of step 4) and then loading gives the new record first,
    followed by the older records in their order; the [startTime] and the
    [endTime] of each come back as dates of the same instants (an [endTime]
    not yet set comes back as [null]) and the other properties come back as
    stored. The write must be accepted, the history must hold no dangling
    reference, and the host must parse the ISO strings it prints. *)
Theorem append_then_load_roundtrip w r rec older :
  currentResearch w = Some r ->
  heap w !! r = Some rec ->
  Forall2 (fun r' rec' => heap w !! r' = Some rec') (researchHistory w) older ->
  setItem_accepts host (json_view (history_value (unshift_current w))) = true ->
  Forall dates_roundtrip (rec :: older) ->
  exists first rest,
    loadHistory (localStorage (saveHistory (unshift_current w))) = first :: rest
    /\ loaded_from rec first
    /\ Forall2 loaded_from older rest.
Proof.
  intros Hcur Hrec Holder Hacc Hdates.
  unfold saveHistory, setItem_try. rewrite Hacc. cbn [localStorage set_localStorage].
  unfold unshift_current. rewrite Hcur.
  unfold history_value. cbn [researchHistory set_researchHistory heap set_heap map].
  rewrite Hrec.
  assert (map (fun r' => match heap w !! r' with
                         | Some rec' => research_value rec'
                         | None => VUndefined
                         end) (researchHistory w)
          = map research_value older) as ->.
  { clear -Holder. induction Holder as [|r' rec' refs recs Hr' _ IH]; [done|].
    cbn [map]. by rewrite Hr', IH. }
  destruct (revive_all (rec :: older) Hdates) as (loaded & Hloaded & Hall).
  inversion Hall as [|? first ? rest Hfirst Hrest]; subst.
  exists first, rest. split; [|done].
  unfold loadHistory, loadHistory_try.
  cbn [json_view]. fold json_view.
  cbn [map] in Hloaded |- *. by rewrite Hloaded.
Qed.

(** C8. When the stored text cannot be parsed, [loadHistory] returns the
    empty list: the exception stays inside its [try]. *)
Theorem corrupt_history_loads_empty raw : loadHistory (Some (Malformed raw)) = [].
Proof. unfold loadHistory, loadHistory_try. by destruct (String.eqb raw ""). Qed.

(** Whatever the body of the [try] throws, the result is the empty list. *)
Lemma loadHistory_catches storage e :
  loadHistory_try storage = inr e -> loadHistory storage = [].
Proof. unfold loadHistory. by intros ->. Qed.

(** ** The relevance score *)













(** ** The summary and the keywords *)



Lemma unique_elem x l : In x (unique l) <-> In x l.
Proof.
  induction l as [|y l IH]; cbn; [done|].
  rewrite filter_In, IH. split.
  - intros [->|[H _]]; auto.
  - intros [->|H]; [by left|].
    destruct (String.eqb_spec y x) as [->|Hne]; [by left|right].
    split; [done|]. by destruct (String.eqb_spec y x).
Qed.



End Agent.

(** ** Runs on the concrete host *)

(** A run on the concrete host: five sources for the depth [basic], in
    descending order of relevance. *)
Example run_machine_learning_basic :
  option_map
    (fun rec => (status rec, currentStep rec, progress rec,
                 option_map (fun res => map title (res_sources res)) (results rec)))
    (current_record (run DemoHost.host " Machine Learning " "basic" DemoHost.start))
  = Some ("completed", 5, 100%float,
          Some ["Artificial Intelligence"; "Machine Learning";
                "The Future of AI in Healthcare"; "Deep Learning";
                "Building Scalable Machine Learning Systems"]).
Proof. vm_compute. reflexivity. Qed.

(** What is stored is the record as it was in step 4: still running. *)
Example stored_record_is_running :
  match loadHistory DemoHost.host
          (localStorage (run DemoHost.host " Machine Learning " "basic" DemoHost.start)) with
  | [first] =>
      (property first "status", property first "currentStep", property first "endTime")
  | _ => (None, None, None)
  end
  = (Some (VStr "running"), Some (VNum (Int 4)), Some VNull).
Proof. vm_compute. reflexivity. Qed.

(** Two spaces in a row give an empty piece, and the empty piece is matched
    by every content word. *)
Example split_two_spaces :
  split " " "a  b" = ["a"; ""; "b"]
  /\ word_matches ["x"] "" = true
  /\ count_matches (split " " "a  b") ["x"] = 1.
Proof. by vm_compute. Qed.

(** Every title and summary of the two catalogues has plain spacing. *)
Example catalogues_plain_spacing :
  forallb (fun a => plain_spacing (toLowerCase (title a ++ " " ++ summary a)))
          (generateWikipediaData ++ generateHackerNewsData)
  = true.
Proof. vm_compute. reflexivity. Qed.

(** C1, counterexample. While the first run is active a second submission
    is not rejected: it returns normally, a second record is created and
    becomes the current one. The first record is then never written again:
    when all timers have fired it is still 'running'. *)
Lemma second_submission_changes_state :
  let w1 := submit DemoHost.host "AI" "basic" DemoHost.start in
  let w2 := submit DemoHost.host "robotics" "detailed" w1 in
  option_map status (current_record w1) = Some "running"
  /\ handleSubmit DemoHost.host "robotics" "detailed" w1 = Normal w2
  /\ uncaught w2 = []
  /\ length (heap w1) = 1 /\ length (heap w2) = 2
  /\ currentResearch w1 = Some 0 /\ currentResearch w2 = Some 1
  /\ w2 <> w1
  /\ timers (fire_n DemoHost.host 14 w2) = []
  /\ option_map status (heap (fire_n DemoHost.host 14 w2) !! 0) = Some "running".
Proof.
  cbv zeta. split_and!; try (vm_compute; reflexivity).
  intros H. apply (f_equal currentResearch) in H. vm_compute in H. discriminate.
Qed.

(** C1 on the concrete host: a submission during a run. *)
Lemma submission_always_accepted_witness :
  trim "robotics" <> ""
  /\ exists rec,
      handleSubmit DemoHost.host "robotics" "detailed" (submit DemoHost.host "AI" "basic" DemoHost.start)
      = Normal (submit DemoHost.host "robotics" "detailed" (submit DemoHost.host "AI" "basic" DemoHost.start))
      /\ status rec = "running"
      /\ heap (submit DemoHost.host "robotics" "detailed" (submit DemoHost.host "AI" "basic" DemoHost.start))
         = heap (submit DemoHost.host "AI" "basic" DemoHost.start) ++ [rec].
Proof.
  assert (trim "robotics" <> "") as H by (vm_compute; discriminate).
  split; [exact H|].
  destruct (submission_always_accepted DemoHost.host "robotics" "detailed"
              (submit DemoHost.host "AI" "basic" DemoHost.start) H)
    as (rec & H1 & _ & H3 & H4 & _).
  exists rec. split_and!; assumption.
Defined.

(** C2 on the concrete host. *)
Lemma sources_within_caps_witness :
  timers DemoHost.start = [] /\ trim " Machine Learning " <> ""
  /\ exists rec res,
      current_record (run DemoHost.host " Machine Learning " "basic" DemoHost.start) = Some rec
      /\ results rec = Some res
      /\ length (res_sources res) <= 5.
Proof.
  assert (trim " Machine Learning " <> "") as H by (vm_compute; discriminate).
  split; [reflexivity|]. split; [exact H|].
  destruct (sources_within_caps DemoHost.host " Machine Learning " "basic" DemoHost.start eq_refl H)
    as (rec & res & raw & H1 & _ & H3 & _ & _ & _ & _ & H8 & _).
  exists rec, res. split_and!; [exact H1|exact H3|exact (H8 eq_refl)].
Defined.

(** C3 on the concrete host. *)
Lemma sources_sorted_stable_witness :
  timers DemoHost.start = [] /\ trim " Machine Learning " <> ""
  /\ exists rec res,
      current_record (run DemoHost.host " Machine Learning " "comprehensive" DemoHost.start) = Some rec
      /\ results rec = Some res
      /\ forall i a b,
          res_sources res !! i = Some a -> res_sources res !! S i = Some b ->
          (relevance b <= relevance a)%Q.
Proof.
  assert (trim " Machine Learning " <> "") as H by (vm_compute; discriminate).
  split; [reflexivity|]. split; [exact H|].
  destruct (sources_sorted_stable DemoHost.host " Machine Learning " "comprehensive"
              DemoHost.start eq_refl H)
    as (rec & res & raw & H1 & _ & H3 & _ & H5 & _).
  exists rec, res. split_and!; [exact H1|exact H3|exact H5].
Defined.





(** C7 on the concrete host: one whole run, then a second run up to the
    timer of its step 4; its record is appended in front of the first one,
    which has its [endTime] by then. *)
Lemma append_then_load_roundtrip_witness :
  let w := fire_n DemoHost.host 5
             (submit DemoHost.host "Robotics" "detailed"
                (run DemoHost.host " Machine Learning " "basic" DemoHost.start)) in
  exists first second,
    loadHistory DemoHost.host
      (localStorage (saveHistory DemoHost.host (unshift_current w)))
    = [first; second]
    /\ property first "topic" = Some (VStr "Robotics")
    /\ property first "startTime" = Some (VDate (Some 1700000012700%Z))
    /\ property first "endTime" = Some VNull
    /\ property second "startTime" = Some (VDate (Some 1700000000000%Z))
    /\ property second "endTime" = Some (VDate (Some 1700000012700%Z)).
Proof.
  cbv zeta.
  set (w := fire_n DemoHost.host 5 _).
  assert (researchHistory w = [0]) as Hhistory by (vm_compute; reflexivity).
  edestruct (append_then_load_roundtrip DemoHost.host w 1)
    as (first & rest & Hload & Hfirst & Hrest).
  - vm_compute. reflexivity.
  - vm_compute. reflexivity.
  - rewrite Hhistory. constructor; [vm_compute; reflexivity|constructor].
  - reflexivity.
  - constructor; [|constructor; [|constructor]].
    + split; [vm_compute; reflexivity|]. intros e He. vm_compute in He. discriminate.
    + split; [vm_compute; reflexivity|]. intros e He. vm_compute in He.
      injection He as <-. split; [vm_compute; reflexivity|vm_compute; discriminate].
  - inversion Hrest as [|? second ? rest' Hsecond Hnil]; subst.
    inversion Hnil; subst.
    destruct Hfirst as (F1 & F2 & F3). destruct Hsecond as (S1 & S2 & _).
    exists first, second. split_and!; [exact Hload| |exact F1|exact F2|exact S1|exact S2].
    rewrite (F3 "topic") by discriminate. vm_compute. reflexivity.
Defined.



